(** * The session shell plugin on Unix: [shell_unix.go]

    A shallow embedding of [agent/session/plugins/shell/shell_unix.go]
    (package [shell]): [StartPty], [Stop], [SetSize], [getUserCredentials]
    and [generateLogData], together with the parts of the Go standard
    library and of [github.com/kr/pty] that these functions call.

    Go strings are byte strings, modelled as [string]; Go's [int] is taken
    to be 64 bits wide (the agent's Unix targets), [uint32] and [uint16]
    are [Z] with the wrap-around of the conversion written out.  Calls
    that leave the process (running a command, opening a PTY, writing to
    a file, sleeping, logging) are recorded in a trace and answered by a
    [Host]. *)

From Stdlib Require Import ZArith List Bool Ascii String Lia.
From Stdlib Require Import DecimalString.
Import ListNotations.

Open Scope string_scope.
Open Scope Z_scope.

(** ** Package [strings] *)

Module strings.

(** [asciiSpace]: the six ASCII bytes [TrimSpace] removes on its fast
    path: tab, line feed, vertical tab, form feed, carriage return and
    space. *)
Definition asciiSpace (c : ascii) : bool :=
  let n := nat_of_ascii c in
  ((9 <=? n)%nat && (n <=? 13)%nat) || (n =? 32)%nat.

(** The UTF-8 encodings of the code points above U+007F for which
    [unicode.IsSpace] holds: U+0085, U+00A0, U+1680, U+2000..U+200A,
    U+2028, U+2029, U+202F, U+205F and U+3000.  [utf8.DecodeRune]
    yields such a code point exactly on these byte sequences (overlong
    forms decode to [RuneError]). *)
Definition isSpace2 (a b : ascii) : bool :=
  (nat_of_ascii a =? 194)%nat &&
  ((nat_of_ascii b =? 133)%nat || (nat_of_ascii b =? 160)%nat).

Definition isSpace3 (a b c : ascii) : bool :=
  let x := nat_of_ascii a in
  let y := nat_of_ascii b in
  let z := nat_of_ascii c in
  ((x =? 225) && (y =? 154) && (z =? 128))%nat
  || ((x =? 226) && (y =? 128) &&
      (((128 <=? z) && (z <=? 138)) || (z =? 168) || (z =? 169) || (z =? 175)))%nat
  || ((x =? 226) && (y =? 129) && (z =? 159))%nat
  || ((x =? 227) && (y =? 128) && (z =? 128))%nat.

(** Width in bytes of the white-space code point a byte list starts
    with, [0] when it starts with none. *)
Definition leadingSpace (l : list ascii) : nat :=
  match l with
  | a :: r =>
      if asciiSpace a then 1%nat
      else match r with
           | b :: r' =>
               if isSpace2 a b then 2%nat
               else match r' with
                    | c :: _ => if isSpace3 a b c then 3%nat else 0%nat
                    | [] => 0%nat
                    end
           | [] => 0%nat
           end
  | [] => 0%nat
  end.

(** Same for the code point a byte list ends with; the list is given
    reversed, last byte first ([utf8.DecodeLastRune]). *)
Definition trailingSpace (rl : list ascii) : nat :=
  match rl with
  | c :: r =>
      if asciiSpace c then 1%nat
      else match r with
           | b :: r' =>
               if isSpace2 b c then 2%nat
               else match r' with
                    | a :: _ => if isSpace3 a b c then 3%nat else 0%nat
                    | [] => 0%nat
                    end
           | [] => 0%nat
           end
  | [] => 0%nat
  end.

(** [dropWhileSpace width n l] removes white-space code points from the
    front of [l] as long as there is one; [n] bounds the number of
    rounds and is taken as the length of [l]. *)
Fixpoint dropWhileSpace (width : list ascii -> nat) (n : nat)
         (l : list ascii) : list ascii :=
  match n with
  | O => l
  | S n' =>
      match width l with
      | O => l
      | k => dropWhileSpace width n' (skipn k l)
      end
  end.

Definition TrimLeftSpace (l : list ascii) : list ascii :=
  dropWhileSpace leadingSpace (List.length l) l.

Definition TrimRightSpace (l : list ascii) : list ascii :=
  rev (dropWhileSpace trailingSpace (List.length l) (rev l)).

(** [strings.TrimSpace]: all leading and trailing white space removed,
    leading first. *)
Definition TrimSpace (s : string) : string :=
  string_of_list_ascii
    (TrimRightSpace (TrimLeftSpace (list_ascii_of_string s))).

(** [strings.Split(s, sep)] for a separator of one byte, the only kind
    this package passes ([" "] and [":"]): the substrings between the
    occurrences of [sep], one more than there are occurrences. *)
Fixpoint Split (s : string) (sep : ascii) : list string :=
  match s with
  | EmptyString => [EmptyString]
  | String c r =>
      if Ascii.eqb c sep then EmptyString :: Split r sep
      else match Split r sep with
           | h :: t => String c h :: t
           | [] => [String c EmptyString]
           end
  end.

(** [strings.Count(s, sep)] for a separator of one byte. *)
Fixpoint Count (s : string) (sep : ascii) : nat :=
  match s with
  | EmptyString => 0%nat
  | String c r => if Ascii.eqb c sep then S (Count r sep) else Count r sep
  end.

End strings.

(** ** Errors *)

(** The two causes a [strconv.NumError] carries. *)
Inductive numErr := ErrSyntax | ErrRange.

(** Go [error] values this package sees.  A Go [error] that may be [nil]
    is an [option error]. *)
Inductive error :=
| HostError (msg : string)
    (** an error of [os/exec], [pty] or the kernel, by its text *)
| Errno (n : Z)
    (** [syscall.Errno] *)
| PathError (Op Path : string) (Err : error)
    (** [os.PathError] *)
| NumError (Func Num : string) (Err : numErr)
    (** [strconv.NumError] *)
| errorString (s : string)
    (** [errors.New(s)] *)
| fmtErrorf (format : string) (cause : error).
    (** [fmt.Errorf(format, cause)], the format kept unexpanded *)

Definition EBADF : error := Errno 9.
Definition ErrInvalid : error := errorString "invalid argument".
Definition ErrClosed : error := errorString "file already closed".

(** ** Package [strconv] *)

Module strconv.

Definition maxUint64 : Z := 2 ^ 64 - 1.

(** The digit loop of [ParseUint(s, 10, 64)]: a byte that is no decimal
    digit is a syntax error, a value past [maxUint64] a range error,
    whichever comes first. *)
Fixpoint parseDigits (s : string) (n : Z) : Z * option numErr :=
  match s with
  | EmptyString => (n, None)
  | String c r =>
      let d := Z.of_nat (nat_of_ascii c) - 48 in
      if (d <? 0) || (9 <? d) then (0, Some ErrSyntax)
      else if maxUint64 / 10 + 1 <=? n then (maxUint64, Some ErrRange)
      else
        let n1 := n * 10 + d in
        if maxUint64 <? n1 then (maxUint64, Some ErrRange)
        else parseDigits r n1
  end.

(** [ParseInt(s, 10, 0)] with a 64-bit [int]: an optional sign, then at
    least one digit. *)
Definition parseInt (s : string) : Z * option numErr :=
  match s with
  | EmptyString => (0, Some ErrSyntax)
  | String c r =>
      let neg := Ascii.eqb c "-" in
      let digits := if Ascii.eqb c "+" || neg then r else s in
      match digits with
      | EmptyString => (0, Some ErrSyntax)
      | _ =>
          match parseDigits digits 0 with
          | (_, Some ErrSyntax) => (0, Some ErrSyntax)
          | (un, _) =>
              if negb neg && (2 ^ 63 <=? un) then (2 ^ 63 - 1, Some ErrRange)
              else if neg && (2 ^ 63 <? un) then (- 2 ^ 63, Some ErrRange)
              else (if neg then - un else un, None)
          end
      end
  end.

(** [strconv.Atoi]: the value and a [nil] error, or a [NumError] naming
    [Atoi] and the text that failed to parse. *)
Definition Atoi (s : string) : Z * option error :=
  match parseInt s with
  | (n, None) => (n, None)
  | (n, Some e) => (n, Some (NumError "Atoi" s e))
  end.

(** [%d] of [fmt]: a decimal numeral. *)
Definition Itoa (n : Z) : string := NilZero.string_of_int (Z.to_int n).

End strconv.

(** Conversions between integer types wrap around. *)
Definition uint32 (n : Z) : Z := n mod 2 ^ 32.
Definition uint16 (n : Z) : Z := n mod 2 ^ 16.

(** ** Files, commands and the host *)

(** An [*os.File] that is not [nil], by its identity; [option File] is an
    [*os.File]. *)
Definition File := nat.

Module syscall.

Record Credential := mkCredential {
  Uid : Z;
  Gid : Z;
  Groups : list Z;
  NoSetGroups : bool
}.

(** Of [syscall.SysProcAttr] only the field [Credential] is set here;
    it is named [Cred], the type having taken the name. *)
Record SysProcAttr := mkSysProcAttr {
  Cred : option Credential
}.

End syscall.

Module exec.

(** An [exec.Cmd].  [Name] is the name given to [exec.Command], which Go
    resolves into the field [Path]; it is also the first of [Args]. *)
Record Cmd := mkCmd {
  Name : string;
  Args : list string;
  Env : list string;
  SysProcAttr : option syscall.SysProcAttr
}.

(** [exec.Command(name, arg...)]: [Args] holds the name, then the
    arguments. *)
Definition Command (name : string) (arg : list string) : Cmd :=
  {| Name := name; Args := name :: arg; Env := []; SysProcAttr := None |}.

Definition withEnv (c : Cmd) (env : list string) : Cmd :=
  {| Name := Name c; Args := Args c; Env := env;
     SysProcAttr := SysProcAttr c |}.

Definition withSysProcAttr (c : Cmd) (a : syscall.SysProcAttr) : Cmd :=
  {| Name := Name c; Args := Args c; Env := Env c; SysProcAttr := Some a |}.

End exec.

Module pty.

(** [pty.Winsize]; the pixel sizes [X] and [Y], never set here, are left
    out. *)
Record Winsize := mkWinsize {
  Rows : Z;
  Cols : Z
}.

End pty.

(** An argument of a logging call. *)
Inductive logArg :=
| ArgString (s : string)
| ArgError (e : error).

(** What the package asks of its surroundings, in the order asked. *)
Inductive Event :=
| EvInfo (msg : string)                       (** [log.Info] *)
| EvErrorf (format : string) (args : list logArg)  (** [log.Errorf] *)
| EvCreateLocalAdminUser                      (** [SessionUtil.CreateLocalAdminUser] *)
| EvOutput (c : exec.Cmd)                     (** [cmd.Output()]: run and collect stdout *)
| EvPtyStart (c : exec.Cmd)                   (** [pty.Start(cmd)]: open a PTY, start the child on it *)
| EvSetsize (f : option File) (ws : pty.Winsize)   (** [pty.Setsize] *)
| EvWrite (f : option File) (data : string)   (** [File.Write] *)
| EvClose (f : option File)                   (** [File.Close] *)
| EvSleep (seconds : Z).                      (** [time.Sleep] *)

(** The host decides what each request returns, knowing everything asked
    before; requests on a file are put to it only while the file is open. *)
Record Host := mkHost {
  answerOutput : list Event -> exec.Cmd -> string * option error;
  answerPtyStart : list Event -> exec.Cmd -> option error;
  answerSetsize : list Event -> File -> pty.Winsize -> option error;
  answerWrite : list Event -> File -> string -> Z * option error;
  answerClose : list Event -> File -> option error
}.

(** The state of the process: its environment ([os.Environ()]), the
    package variable [ptyFile], the files opened so far (numbered from 0)
    and those of them closed again, and the trace. *)
Record World := mkWorld {
  environ : list string;
  ptyFile : option File;
  nextFile : File;
  closedFiles : list File;
  trace : list Event
}.

Definition isOpen (w : World) (f : File) : bool :=
  (f <? nextFile w)%nat && negb (existsb (Nat.eqb f) (closedFiles w)).

Definition record (ev : Event) (w : World) : World :=
  {| environ := environ w; ptyFile := ptyFile w; nextFile := nextFile w;
     closedFiles := closedFiles w; trace := (trace w ++ [ev])%list |}.

(** ** Running the package's code *)

(** A run ends by returning or by a run-time panic. *)
Inductive panicValue :=
| IndexOutOfRange (index len : nat).

Inductive outcome (A : Type) :=
| Returned (a : A)
| Panicked (p : panicValue).

Arguments Returned {A} a.
Arguments Panicked {A} p.

Definition M (A : Type) : Type := World -> outcome A * World.

Definition ret {A} (a : A) : M A := fun w => (Returned a, w).

Definition bind {A B} (m : M A) (k : A -> M B) : M B :=
  fun w =>
    match m w with
    | (Returned a, w') => k a w'
    | (Panicked p, w') => (Panicked p, w')
    end.

Definition panic {A} (p : panicValue) : M A := fun w => (Panicked p, w).

Notation "x <- m ;; k" := (bind m (fun x => k))
  (at level 61, m at next level, right associativity).
Notation "' pat <- m ;; k" := (bind m (fun x => match x with pat => k end))
  (at level 61, pat pattern, m at next level, right associativity).
Notation "m ;; k" := (bind m (fun _ => k))
  (at level 61, right associativity).

(** [l[i]]: panics out of range. *)
Definition index {A} (l : list A) (i : nat) : M A :=
  match nth_error l i with
  | Some x => ret x
  | None => panic (IndexOutOfRange i (List.length l))
  end.

(** A deferred function that calls [recover()]: [handler] runs when
    [body] has panicked, and the function then returns [zero]; otherwise
    [recover()] is [nil] and nothing is done. *)
Definition deferRecover {A} (body : M A) (handler : panicValue -> M unit)
           (zero : A) : M A :=
  fun w =>
    match body w with
    | (Returned a, w') => (Returned a, w')
    | (Panicked p, w') =>
        match handler p w' with
        | (Returned _, w'') => (Returned zero, w'')
        | (Panicked q, w'') => (Panicked q, w'')
        end
    end.

Definition emit (ev : Event) : M unit := fun w => (Returned tt, record ev w).

Module time.
(** A [time.Duration] counts nanoseconds. *)
Definition Second : Z := 1000000000.
Definition Minute : Z := 60 * Second.
Definition Sleep (d : Z) : M unit := emit (EvSleep d).
End time.

Module log.
Definition Info (msg : string) : M unit := emit (EvInfo msg).
Definition Errorf (format : string) (args : list logArg) : M unit :=
  emit (EvErrorf format args).
End log.

Module os.

(** The value of an environment entry ["key=value"] when its key, the
    text before the first ["="], is [key]. *)
Fixpoint valueOf (key entry : string) {struct entry} : option string :=
  match entry with
  | EmptyString => None
  | String c r =>
      if Ascii.eqb c "=" then
        match key with EmptyString => Some r | _ => None end
      else
        match key with
        | String k key' => if Ascii.eqb c k then valueOf key' r else None
        | EmptyString => None
        end
  end.

Fixpoint lookup (key : string) (env : list string) : string :=
  match env with
  | [] => EmptyString
  | e :: env' =>
      match valueOf key e with
      | Some v => v
      | None => lookup key env'
      end
  end.

Definition Environ : M (list string) := fun w => (Returned (environ w), w).

(** [os.Getenv]: the value of the first entry for [key], empty when
    there is none. *)
Definition Getenv (key : string) : M string :=
  fun w => (Returned (lookup key (environ w)), w).

End os.

(** The name [pty.Start] opens the master side under. *)
Definition ptmx : string := "/dev/ptmx".

(** The fields of [ShellPlugin] that [generateLogData] reads. *)
Record ShellPlugin := mkShellPlugin {
  logFilePath : string;
  ipcFilePath : string
}.

(** ** A host to run on *)

Module Demo.

Definition nl : string := String "010" EmptyString.

(** The command line a [sh -c line] invocation carries. *)
Definition lineOf (c : exec.Cmd) : string := last (exec.Args c) EmptyString.

(** Answers of a host on which [ssm-user] has uid and gid 1001 and is
    in the groups [ssm-user] and [test]. *)
Definition passwd (line : string) : string * option error :=
  if String.eqb line "id -u ssm-user" then ("1001" ++ nl, None)
  else if String.eqb line "id -g ssm-user" then ("1001" ++ nl, None)
  else if String.eqb line "groups ssm-user" then
    ("ssm-user : ssm-user test" ++ nl, None)
  else if String.eqb line "getent group ssm-user" then
    ("ssm-user:x:1001:" ++ nl, None)
  else if String.eqb line ("getent group test" ++ nl) then
    ("test:x:1004:ssm-user" ++ nl, None)
  else (EmptyString, Some (HostError "exit status 2")).

Definition healthy : Host :=
  {| answerOutput := fun _ c => passwd (lineOf c);
     answerPtyStart := fun _ _ => None;
     answerSetsize := fun _ _ _ => None;
     answerWrite := fun _ _ data => (Z.of_nat (String.length data), None);
     answerClose := fun _ _ => None |}.

(** The same host without the account: every lookup fails. *)
Definition noUser : Host :=
  {| answerOutput := fun _ _ => (EmptyString, Some (HostError "exit status 1"));
     answerPtyStart := fun _ _ => None;
     answerSetsize := fun _ _ _ => None;
     answerWrite := fun _ _ data => (Z.of_nat (String.length data), None);
     answerClose := fun _ _ => None |}.

(** A host that cannot open a PTY. *)
Definition noPty : Host :=
  {| answerOutput := fun _ c => passwd (lineOf c);
     answerPtyStart := fun _ _ => Some (HostError "no such device");
     answerSetsize := fun _ _ _ => None;
     answerWrite := fun _ _ data => (Z.of_nat (String.length data), None);
     answerClose := fun _ _ => None |}.

(** A host on which [id -u] prints 0 for the account. *)
Definition rootUser : Host :=
  {| answerOutput := fun _ c =>
       if String.eqb (lineOf c) "id -u ssm-user" then ("0" ++ nl, None)
       else passwd (lineOf c);
     answerPtyStart := fun _ _ => None;
     answerSetsize := fun _ _ _ => None;
     answerWrite := fun _ _ data => (Z.of_nat (String.length data), None);
     answerClose := fun _ _ => None |}.

(** A host on which [id -u] prints 4294967296 for the account. *)
Definition wideUid : Host :=
  {| answerOutput := fun _ c =>
       if String.eqb (lineOf c) "id -u ssm-user" then
         ("4294967296" ++ nl, None)
       else passwd (lineOf c);
     answerPtyStart := fun _ _ => None;
     answerSetsize := fun _ _ _ => None;
     answerWrite := fun _ _ data => (Z.of_nat (String.length data), None);
     answerClose := fun _ _ => None |}.

(** A host on which the account is in no group the command prints. *)
Definition noGroups : Host :=
  {| answerOutput := fun _ c =>
       if String.eqb (lineOf c) "groups ssm-user" then (EmptyString, None)
       else passwd (lineOf c);
     answerPtyStart := fun _ _ => None;
     answerSetsize := fun _ _ _ => None;
     answerWrite := fun _ _ data => (Z.of_nat (String.length data), None);
     answerClose := fun _ _ => None |}.

(** A host on which the account is in the group [root], of id 0. *)
Definition rootGroup : Host :=
  {| answerOutput := fun _ c =>
       if String.eqb (lineOf c) "groups ssm-user" then
         ("ssm-user : root", None)
       else if String.eqb (lineOf c) "getent group root" then
         ("root:x:0:" ++ nl, None)
       else passwd (lineOf c);
     answerPtyStart := fun _ _ => None;
     answerSetsize := fun _ _ _ => None;
     answerWrite := fun _ _ data => (Z.of_nat (String.length data), None);
     answerClose := fun _ _ => None |}.

(** A host whose group database answers with a record of two fields. *)
Definition shortRecord : Host :=
  {| answerOutput := fun _ c =>
       if String.eqb (lineOf c) "getent group ssm-user" then
         ("ssm-user:x" ++ nl, None)
       else passwd (lineOf c);
     answerPtyStart := fun _ _ => None;
     answerSetsize := fun _ _ _ => None;
     answerWrite := fun _ _ data => (Z.of_nat (String.length data), None);
     answerClose := fun _ _ => None |}.

(** The values the constants of [appconfig], [utility] and [mgsConfig]
    are given on this host. *)
Definition user : string := "ssm-user".
Definition logger : string := "ssm-session-logger".
Definition sh : string := "sh".
Definition shArgs : list string := ["-c"].
Definition bufferSize : Z := 30000.
Definition exit : string := "exit".

(** A process just started, with the environment [env]. *)
Definition fresh (env : list string) : World :=
  {| environ := env; ptyFile := None; nextFile := O; closedFiles := [];
     trace := [] |}.

Definition env0 : list string := ["PATH=/usr/bin:/bin"; "LANG=en_US.UTF-8"].
Definition env1 : list string := ["PATH=/usr/bin:/bin"].

Definition plugin : ShellPlugin :=
  {| logFilePath := "/var/log/session.log"; ipcFilePath := "/tmp/ipc" |}.

End Demo.

(** ** The package *)

Section Shell.

Variable host : Host.

(** Constants of packages [appconfig], [utility] and [mgsConfig]. *)
Variable DefaultRunAsUserName : string.
Variable DefaultSessionLogger : string.
Variable ShellPluginCommandName : string.
Variable ShellPluginCommandArgs : list string.
Variable ScreenBufferSize : Z.
Variable Exit : string.

Definition CreateLocalAdminUser : M unit := emit EvCreateLocalAdminUser.

(** [cmd.Output()] *)
Definition Output (c : exec.Cmd) : M (string * option error) :=
  fun w => (Returned (answerOutput host (trace w) c), record (EvOutput c) w).

(** [pty.Start(cmd)]: the master side of a new PTY and [nil], or [nil]
    and the error. *)
Definition pty_Start (c : exec.Cmd) : M (option File * option error) :=
  fun w =>
    match answerPtyStart host (trace w) c with
    | Some e => (Returned (None, Some e), record (EvPtyStart c) w)
    | None =>
        (Returned (Some (nextFile w), None),
         record (EvPtyStart c)
           {| environ := environ w; ptyFile := ptyFile w;
              nextFile := S (nextFile w);
              closedFiles := closedFiles w; trace := trace w |})
    end.

(** [pty.Setsize(f, ws)]: the [TIOCSWINSZ] request on [f.Fd()], which is
    no descriptor when [f] is [nil] or closed. *)
Definition pty_Setsize (f : option File) (ws : pty.Winsize)
  : M (option error) :=
  fun w =>
    (Returned
       match f with
       | Some f' =>
           if isOpen w f' then answerSetsize host (trace w) f' ws
           else Some EBADF
       | None => Some EBADF
       end,
     record (EvSetsize f ws) w).

(** [f.Write(data)] *)
Definition Write (f : option File) (data : string) : M (Z * option error) :=
  fun w =>
    (Returned
       match f with
       | Some f' =>
           if isOpen w f' then answerWrite host (trace w) f' data
           else (0, Some (PathError "write" ptmx ErrClosed))
       | None => (0, Some ErrInvalid)
       end,
     record (EvWrite f data) w).

(** [f.Close()]: a file is closed once; after that, and on [nil], it
    fails. *)
Definition Close (f : option File) : M (option error) :=
  fun w =>
    match f with
    | Some f' =>
        if isOpen w f' then
          (Returned (answerClose host (trace w) f'),
           record (EvClose f)
             {| environ := environ w; ptyFile := ptyFile w;
                nextFile := nextFile w;
                closedFiles := f' :: closedFiles w; trace := trace w |})
        else
          (Returned (Some (PathError "close" ptmx ErrClosed)),
           record (EvClose f) w)
    | None => (Returned (Some ErrInvalid), record (EvClose f) w)
    end.

Definition getPtyFile : M (option File) :=
  fun w => (Returned (ptyFile w), w).

Definition setPtyFile (f : option File) : M unit :=
  fun w =>
    (Returned tt,
     {| environ := environ w; ptyFile := f; nextFile := nextFile w;
        closedFiles := closedFiles w; trace := trace w |}).

(** *** Constants of the package *)

Definition termEnvVariable : string := "TERM=xterm-256color".
Definition langEnvVariable : string := "LANG=C.UTF-8".
Definition langEnvVariableKey : string := "LANG".
Definition startRecordSessionCmd : string := "script".
Definition newLineCharacter : string := String "010" EmptyString.
Definition homeEnvVariable : string := "HOME=/home/" ++ DefaultRunAsUserName.

(** [fmt.Sprintf(screenBufferSizeCmd, n, nl)] with
    [screenBufferSizeCmd = "screen -h %d%s"]. *)
Definition screenBufferSizeCmd (n : Z) (nl : string) : string :=
  "screen -h " ++ strconv.Itoa n ++ nl.

(** [append(utility.ShellPluginCommandArgs, line)] handed to
    [exec.Command(utility.ShellPluginCommandName, ...)]. *)
Definition shellCommand (line : string) : exec.Cmd :=
  exec.Command ShellPluginCommandName (ShellPluginCommandArgs ++ [line])%list.

(** *** [getUserCredentials] *)

(** The loop [for i := 2; i < len(groupNames); i++] with [n] rounds
    left to go.  [inl groupIds] when the loop has run to its end, [inr
    err] when its body has returned from the function with [err]. *)
Fixpoint groupIdsLoop (groupNames : list string) (n i : nat)
         (groupIds : list Z) : M (list Z + error) :=
  match n with
  | O => ret (inl groupIds)
  | S n' =>
      name <- index groupNames i ;;
      '(out, err) <- Output (shellCommand ("getent group " ++ name)) ;;
      match err with
      | Some e =>
          log.Errorf "Failed to retrieve group id for %s: %v"
                     [ArgString name; ArgError e] ;;
          ret (inr e)
      | None =>
          field <- index (strings.Split out ":") 2 ;;
          let '(groupIdFromName, err) :=
            strconv.Atoi (strings.TrimSpace field) in
          match err with
          | Some e =>
              log.Errorf "%s group id not found: %v"
                         [ArgString name; ArgError e] ;;
              ret (inr e)
          | None =>
              groupIdsLoop groupNames n' (S i)
                           (groupIds ++ [uint32 groupIdFromName])%list
          end
      end
  end.

(** Returns the uid, gid and groups of the runas user, and an error. *)
Definition getUserCredentials : M (Z * Z * list Z * option error) :=
  '(out, err) <- Output (shellCommand ("id -u " ++ DefaultRunAsUserName)) ;;
  match err with
  | Some e =>
      log.Errorf "Failed to retrieve uid for %s: %v"
                 [ArgString DefaultRunAsUserName; ArgError e] ;;
      ret (0, 0, [], Some e)
  | None =>
  let '(uid, err) := strconv.Atoi (strings.TrimSpace out) in
  match err with
  | Some e =>
      log.Errorf "%s not found: %v"
                 [ArgString DefaultRunAsUserName; ArgError e] ;;
      ret (0, 0, [], Some e)
  | None =>
  '(out, err) <- Output (shellCommand ("id -g " ++ DefaultRunAsUserName)) ;;
  match err with
  | Some e =>
      log.Errorf "Failed to retrieve gid for %s: %v"
                 [ArgString DefaultRunAsUserName; ArgError e] ;;
      ret (0, 0, [], Some e)
  | None =>
  let '(gid, err) := strconv.Atoi (strings.TrimSpace out) in
  match err with
  | Some e =>
      log.Errorf "%s not found: %v"
                 [ArgString DefaultRunAsUserName; ArgError e] ;;
      ret (0, 0, [], Some e)
  | None =>
  '(out, err) <- Output (shellCommand ("groups " ++ DefaultRunAsUserName)) ;;
  match err with
  | Some e =>
      log.Errorf "Failed to retrieve groups for %s: %v"
                 [ArgString DefaultRunAsUserName; ArgError e] ;;
      ret (0, 0, [], Some e)
  | None =>
  let groupNames := strings.Split out " " in
  r <- groupIdsLoop groupNames (List.length groupNames - 2) 2 [] ;;
  match r with
  | inr e => ret (0, 0, [], Some e)
  | inl groupIds =>
      if (0 <? uid) && (0 <? gid) then
        ret (uint32 uid, uint32 gid, groupIds, None)
      else
        ret (0, 0, [], Some (errorString "invalid uid and gid"))
  end
  end end end end end.

(** *** [StartPty], [Stop], [SetSize] *)

(** [StartPty] from [pty.Start] on. *)
Definition startCmd (cmd : exec.Cmd)
  : M (option File * option File * option error) :=
  '(f, err) <- pty_Start cmd ;;
  setPtyFile f ;;
  match err with
  | Some e =>
      log.Errorf ("Failed to start pty: %s" ++ newLineCharacter) [ArgError e] ;;
      ret (None, None,
           Some (fmtErrorf ("Failed to start pty: %s" ++ newLineCharacter) e))
  | None =>
      f' <- getPtyFile ;;
      ret (f', f', None)
  end.

(** Starts pty and provides handles to stdin and stdout. *)
Definition StartPty (runAsSsmUser : bool) (shellCmd : string)
  : M (option File * option File * option error) :=
  log.Info "Starting pty" ;;
  let cmd :=
    if String.eqb (strings.TrimSpace shellCmd) "" then
      exec.Command "sh" []
    else
      let commandArgs := (ShellPluginCommandArgs ++ [shellCmd])%list in
      exec.Command "sh" commandArgs in
  env <- os.Environ ;;
  let cmd :=
    exec.withEnv cmd (env ++ [termEnvVariable; homeEnvVariable])%list in
  langEnvVariableValue <- os.Getenv langEnvVariableKey ;;
  let cmd :=
    if String.eqb langEnvVariableValue "" then
      exec.withEnv cmd (exec.Env cmd ++ [langEnvVariable])%list
    else cmd in
  if runAsSsmUser then
    CreateLocalAdminUser ;;
    '(uid, gid, groups, err) <- getUserCredentials ;;
    match err with
    | Some e => ret (None, None, Some e)
    | None =>
        startCmd
          (exec.withSysProcAttr cmd
             {| syscall.Cred :=
                  Some {| syscall.Uid := uid; syscall.Gid := gid;
                          syscall.Groups := groups;
                          syscall.NoSetGroups := false |} |})
    end
  else startCmd cmd.

(** Closes pty file. *)
Definition Stop : M (option error) :=
  log.Info "Stopping pty" ;;
  f <- getPtyFile ;;
  err <- Close f ;;
  match err with
  | Some e => ret (Some (fmtErrorf "unable to close ptyFile. %s" e))
  | None => ret None
  end.

(** Sets size of console terminal window. *)
Definition SetSize (ws_col ws_row : Z) : M (option error) :=
  let winSize := {| pty.Cols := uint16 ws_col; pty.Rows := uint16 ws_row |} in
  f <- getPtyFile ;;
  err <- pty_Setsize f winSize ;;
  match err with
  | Some e => ret (Some (fmtErrorf "set pty size failed: %s" e))
  | None => ret None
  end.

(** *** [generateLogData] *)

(** Generates a log file with the executed commands. *)
Definition generateLogData (p : ShellPlugin) : M (option error) :=
  '(shadowShellInput, _, err) <- StartPty false "" ;;
  match err with
  | Some e => ret (Some e)
  | None =>
      deferRecover
        (time.Sleep (5 * time.Second) ;;
         let screenBufferSizeCmdInput :=
           screenBufferSizeCmd ScreenBufferSize newLineCharacter in
         Write shadowShellInput screenBufferSizeCmdInput ;;
         time.Sleep (5 * time.Second) ;;
         let recordCmdInput :=
           startRecordSessionCmd ++ " " ++ logFilePath p ++ newLineCharacter in
         Write shadowShellInput recordCmdInput ;;
         time.Sleep (5 * time.Second) ;;
         let loggerCmdInput :=
           DefaultSessionLogger ++ " " ++ ipcFilePath p ++ " " ++ "false"
             ++ newLineCharacter in
         Write shadowShellInput loggerCmdInput ;;
         time.Sleep time.Minute ;;
         let exitCmdInput := Exit ++ newLineCharacter in
         Write shadowShellInput exitCmdInput ;;
         time.Sleep (30 * time.Second) ;;
         Write shadowShellInput exitCmdInput ;;
         time.Sleep (5 * time.Second) ;;
         Write shadowShellInput exitCmdInput ;;
         time.Sleep (5 * time.Second) ;;
         Close shadowShellInput ;;
         time.Sleep (15 * time.Second) ;;
         ret None)
        (fun _ =>
           err <- Stop ;;
           match err with
           | Some e =>
               log.Errorf "Error occured while closing pty: %v" [ArgError e]
           | None => ret tt
           end)
        None
  end.

(** ** What a run adds to the trace *)

(** The events of [w'] that [w] did not have yet. *)
Definition newEvents (w w' : World) : list Event :=
  skipn (List.length (trace w)) (trace w').

(** The commands run through [cmd.Output()], in order. *)
Definition outputs (evs : list Event) : list exec.Cmd :=
  flat_map (fun ev => match ev with EvOutput c => [c] | _ => [] end) evs.

(** The commands started on a PTY, in order. *)
Definition ptyStarts (evs : list Event) : list exec.Cmd :=
  flat_map (fun ev => match ev with EvPtyStart c => [c] | _ => [] end) evs.

(** The data written to files, in order. *)
Definition writes (evs : list Event) : list string :=
  flat_map (fun ev => match ev with EvWrite _ d => [d] | _ => [] end) evs.

(** Nothing but the trace differs between [w] and [w']. *)
Definition sameProcess (w w' : World) : Prop :=
  environ w' = environ w /\ ptyFile w' = ptyFile w /\
  nextFile w' = nextFile w /\ closedFiles w' = closedFiles w.

(** The lookup of one group in the group database. *)
Definition getent (name : string) : exec.Cmd :=
  shellCommand ("getent group " ++ name).

Definition uidCmd : exec.Cmd := shellCommand ("id -u " ++ DefaultRunAsUserName).
Definition gidCmd : exec.Cmd := shellCommand ("id -g " ++ DefaultRunAsUserName).
Definition groupsCmd : exec.Cmd :=
  shellCommand ("groups " ++ DefaultRunAsUserName).

(** The result of [getUserCredentials] when it returns the error [e]. *)
Definition failed (e : error) : outcome (Z * Z * list Z * option error) :=
  Returned (0, 0, [], Some e).

(** The command [StartPty] has built when it reaches the runas branch:
    its first statements, which ask nothing of the host. *)
Definition preparedCmd (shellCmd : string) (w : World) : exec.Cmd :=
  let cmd :=
    if String.eqb (strings.TrimSpace shellCmd) "" then exec.Command "sh" []
    else exec.Command "sh" (ShellPluginCommandArgs ++ [shellCmd])%list in
  let cmd :=
    exec.withEnv cmd (environ w ++ [termEnvVariable; homeEnvVariable])%list in
  if String.eqb (os.lookup langEnvVariableKey (environ w)) "" then
    exec.withEnv cmd (exec.Env cmd ++ [langEnvVariable])%list
  else cmd.

Definition withCredential (cmd : exec.Cmd) (uid gid : Z) (groups : list Z)
  : exec.Cmd :=
  exec.withSysProcAttr cmd
    {| syscall.Cred :=
         Some {| syscall.Uid := uid; syscall.Gid := gid;
                 syscall.Groups := groups; syscall.NoSetGroups := false |} |}.

(** The world in which [StartPty true] resolves the credentials. *)
Definition beforeResolve (w : World) : World :=
  record EvCreateLocalAdminUser (record (EvInfo "Starting pty") w).

(** The files closed so far are files that were opened. *)
Definition wellFormed (w : World) : Prop :=
  Forall (fun f => (f < nextFile w)%nat) (closedFiles w).

(** The time spent in [time.Sleep], in nanoseconds. *)
Definition slept (evs : list Event) : Z :=
  fold_right (fun ev acc => match ev with EvSleep d => d + acc | _ => acc end)
             0 evs.

(** The files handed to [File.Close], in order. *)
Definition closes (evs : list Event) : list (option File) :=
  flat_map (fun ev => match ev with EvClose f => [f] | _ => [] end) evs.

(** A host on which opening a PTY, resizing it and closing it succeed. *)
Definition ptyWorks : Prop :=
  (forall tr c, answerPtyStart host tr c = None) /\
  (forall tr f ws, answerSetsize host tr f ws = None) /\
  (forall tr f, answerClose host tr f = None).

(** ** Lemmas on the library functions *)

Lemma newEvents_app (w w' : World) (evs : list Event) :
  trace w' = (trace w ++ evs)%list -> newEvents w w' = evs.
Proof.
  intros H. unfold newEvents. rewrite H.
  rewrite skipn_app, skipn_all, Nat.sub_diag. reflexivity.
Qed.

Lemma outputs_app (a b : list Event) :
  outputs (a ++ b) = (outputs a ++ outputs b)%list.
Proof. unfold outputs. apply flat_map_app. Qed.

Lemma ptyStarts_app (a b : list Event) :
  ptyStarts (a ++ b) = (ptyStarts a ++ ptyStarts b)%list.
Proof. unfold ptyStarts. apply flat_map_app. Qed.

Lemma outputs_cons_EvOutput (c : exec.Cmd) (evs : list Event) :
  outputs (EvOutput c :: evs) = c :: outputs evs.
Proof. reflexivity. Qed.


Lemma ptyStarts_map_EvOutput (l : list exec.Cmd) :
  ptyStarts (map EvOutput l) = [].
Proof. induction l as [|c l IH]; simpl; [reflexivity | exact IH]. Qed.

Lemma Split_nonempty (s : string) (sep : ascii) : strings.Split s sep <> [].
Proof.
  destruct s as [|c r]; simpl; [discriminate|].
  destruct (Ascii.eqb c sep); [discriminate|].
  destruct (strings.Split r sep); discriminate.
Qed.

(** [Split] yields one more piece than there are separators. *)
Lemma Split_length (s : string) (sep : ascii) :
  List.length (strings.Split s sep) = S (strings.Count s sep).
Proof.
  induction s as [|c r IH]; simpl; [reflexivity|].
  destruct (Ascii.eqb c sep); simpl; [now rewrite IH|].
  destruct (strings.Split r sep) as [|h t] eqn:E.
  - now apply Split_nonempty in E.
  - simpl in *. exact IH.
Qed.

Lemma skipn_nth_error {A} (l : list A) (i : nat) (x : A) :
  nth_error l i = Some x -> skipn i l = x :: skipn (S i) l.
Proof.
  revert i. induction l as [|a l IH]; intros [|i] H; simpl in *;
    try discriminate.
  - now injection H as ->.
  - now apply IH.
Qed.

(** ** The loop over the group names *)

(** One round of the loop, by what the host answers. *)
Lemma groupIdsLoop_step (names : list string) (n i : nat) (ids : list Z)
      (w : World) (name : string) :
  nth_error names i = Some name ->
  groupIdsLoop names (S n) i ids w =
  let w1 := record (EvOutput (getent name)) w in
  match answerOutput host (trace w) (getent name) with
  | (_, Some e) =>
      (Returned (inr e),
       record (EvErrorf "Failed to retrieve group id for %s: %v"
                        [ArgString name; ArgError e]) w1)
  | (out, None) =>
      match nth_error (strings.Split out ":") 2 with
      | None =>
          (Panicked (IndexOutOfRange 2 (List.length (strings.Split out ":"))),
           w1)
      | Some field =>
          match strconv.Atoi (strings.TrimSpace field) with
          | (_, Some e) =>
              (Returned (inr e),
               record (EvErrorf "%s group id not found: %v"
                                [ArgString name; ArgError e]) w1)
          | (id, None) =>
              groupIdsLoop names n (S i) (ids ++ [uint32 id])%list w1
          end
      end
  end.
Proof.
  intros Hn. cbn [groupIdsLoop]. unfold bind at 1. unfold index at 1.
  rewrite Hn. unfold ret at 1. unfold bind at 1. unfold Output at 1.
  fold (getent name).
  destruct (answerOutput host (trace w) (getent name)) as [out [e|]].
  - reflexivity.
  - unfold bind at 1. unfold index at 1.
    destruct (nth_error (strings.Split out ":") 2) as [field|]; [|reflexivity].
    unfold ret at 1.
    destruct (strconv.Atoi (strings.TrimSpace field)) as [id [e|]];
      reflexivity.
Qed.

(** The loop asks for the names from position [i] on, one after the
    other, and stops asking at the first round that fails. *)
Lemma groupIdsLoop_trace (names : list string) (n : nat) :
  forall (i : nat) (ids : list Z) (w : World),
    (n <> O -> i + n <= List.length names)%nat ->
    exists (k : nat) (evs : list Event),
      (k <= n)%nat /\
      trace (snd (groupIdsLoop names n i ids w)) = (trace w ++ evs)%list /\
      outputs evs = map getent (firstn k (skipn i names)) /\
      ptyStarts evs = [] /\
      sameProcess w (snd (groupIdsLoop names n i ids w)) /\
      (forall ids', fst (groupIdsLoop names n i ids w) = Returned (inl ids') ->
                    k = n /\
                    evs = map EvOutput (map getent (firstn n (skipn i names)))).
Proof.
  induction n as [|n IH]; intros i ids w Hlen.
  - exists O, []. cbn. rewrite app_nil_r. unfold sameProcess. auto 10.
  - assert (Hi : (i < List.length names)%nat) by (specialize (Hlen ltac:(discriminate)); lia).
    destruct (nth_error names i) as [name|] eqn:Hn;
      [|apply nth_error_None in Hn; lia].
    rewrite (groupIdsLoop_step names n i ids w name Hn). cbv zeta.
    rewrite (skipn_nth_error names i name Hn).
    destruct (answerOutput host (trace w) (getent name)) as [out [e|]].
    + exists 1%nat, [EvOutput (getent name); EvErrorf "Failed to retrieve group id for %s: %v" [ArgString name; ArgError e]].
      cbn. rewrite <- app_assoc. unfold sameProcess. cbn.
      repeat split; try reflexivity; try lia; discriminate.
    + destruct (nth_error (strings.Split out ":") 2) as [field|].
      * destruct (strconv.Atoi (strings.TrimSpace field)) as [id [e|]].
        -- exists 1%nat, [EvOutput (getent name); EvErrorf "%s group id not found: %v" [ArgString name; ArgError e]].
           cbn. rewrite <- app_assoc. unfold sameProcess. cbn.
           repeat split; try reflexivity; try lia; discriminate.
        -- destruct (IH (S i) (ids ++ [uint32 id])%list
                        (record (EvOutput (getent name)) w))
             as (k & evs & Hk & Htr & Hout & Hpty & Hsame & Hall).
           { intros Hn0. specialize (Hlen ltac:(discriminate)). lia. }
           exists (S k), (EvOutput (getent name) :: evs).
           split; [lia|]. split.
           { rewrite Htr. cbn. rewrite <- app_assoc. reflexivity. }
           split; [rewrite outputs_cons_EvOutput, Hout; reflexivity|].
           split; [exact Hpty|].
           split; [exact Hsame|].
           intros ids' Hr. destruct (Hall ids' Hr) as [-> ->].
           split; reflexivity.
      * exists 1%nat, [EvOutput (getent name)].
        cbn. unfold sameProcess. cbn.
        repeat split; try reflexivity; try lia; discriminate.
Qed.

(** ** [getUserCredentials], by what the host answers *)

Lemma getUserCredentials_run (w : World) :
  getUserCredentials w =
  let user := ArgString DefaultRunAsUserName in
  let w1 := record (EvOutput uidCmd) w in
  let w2 := record (EvOutput gidCmd) w1 in
  let w3 := record (EvOutput groupsCmd) w2 in
  match answerOutput host (trace w) uidCmd with
  | (_, Some e) =>
      (failed e,
       record (EvErrorf "Failed to retrieve uid for %s: %v" [user; ArgError e]) w1)
  | (out, None) =>
  match strconv.Atoi (strings.TrimSpace out) with
  | (_, Some e) =>
      (failed e, record (EvErrorf "%s not found: %v" [user; ArgError e]) w1)
  | (uid, None) =>
  match answerOutput host (trace w1) gidCmd with
  | (_, Some e) =>
      (failed e,
       record (EvErrorf "Failed to retrieve gid for %s: %v" [user; ArgError e]) w2)
  | (out, None) =>
  match strconv.Atoi (strings.TrimSpace out) with
  | (_, Some e) =>
      (failed e, record (EvErrorf "%s not found: %v" [user; ArgError e]) w2)
  | (gid, None) =>
  match answerOutput host (trace w2) groupsCmd with
  | (_, Some e) =>
      (failed e,
       record (EvErrorf "Failed to retrieve groups for %s: %v"
                        [user; ArgError e]) w3)
  | (out, None) =>
      let groupNames := strings.Split out " " in
      match groupIdsLoop groupNames (List.length groupNames - 2) 2 [] w3 with
      | (Panicked p, w4) => (Panicked p, w4)
      | (Returned (inr e), w4) => (failed e, w4)
      | (Returned (inl groupIds), w4) =>
          (if (0 <? uid) && (0 <? gid)
           then Returned (uint32 uid, uint32 gid, groupIds, None)
           else failed (errorString "invalid uid and gid"), w4)
      end
  end end end end end.
Proof.
  unfold getUserCredentials, failed. cbv zeta.
  unfold bind at 1. unfold Output at 1. fold uidCmd.
  destruct (answerOutput host (trace w) uidCmd) as [out1 [e|]]; [reflexivity|].
  destruct (strconv.Atoi (strings.TrimSpace out1)) as [uid [e|]];
    [reflexivity|].
  unfold bind at 1. unfold Output at 1. fold gidCmd.
  destruct (answerOutput host (trace (record (EvOutput uidCmd) w)) gidCmd)
    as [out2 [e|]]; [reflexivity|].
  destruct (strconv.Atoi (strings.TrimSpace out2)) as [gid [e|]];
    [reflexivity|].
  unfold bind at 1. unfold Output at 1. fold groupsCmd.
  destruct (answerOutput host
              (trace (record (EvOutput gidCmd) (record (EvOutput uidCmd) w)))
              groupsCmd) as [out3 [e|]]; [reflexivity|].
  unfold bind at 1.
  destruct (groupIdsLoop (strings.Split out3 " ")
              (List.length (strings.Split out3 " ") - 2) 2 []
              (record (EvOutput groupsCmd)
                 (record (EvOutput gidCmd) (record (EvOutput uidCmd) w))))
    as [[[ids|e]|p] w4]; try reflexivity.
  destruct ((0 <? uid) && (0 <? gid)); reflexivity.
Qed.

Lemma getUserCredentials_loop_bound (out : string) :
  (List.length (strings.Split out " ") - 2 <> O ->
   2 + (List.length (strings.Split out " ") - 2)
   <= List.length (strings.Split out " "))%nat.
Proof. lia. Qed.


(** The third field of a record exists exactly when the record holds two
    separators. *)
Lemma third_field_iff (out : string) :
  (exists field, nth_error (strings.Split out ":") 2 = Some field) <->
  (2 <= strings.Count out ":")%nat.
Proof.
  split.
  - intros [field H].
    assert (Hlt : (2 < List.length (strings.Split out ":"))%nat)
      by (apply nth_error_Some; congruence).
    rewrite Split_length in Hlt. lia.
  - intros H.
    destruct (nth_error (strings.Split out ":") 2) as [field|] eqn:E;
      [now exists field|].
    apply nth_error_None in E. rewrite Split_length in E. lia.
Qed.

(** With two separators in every answer to a group lookup the loop does
    not panic. *)
Lemma groupIdsLoop_no_panic (names : list string) (n : nat) :
  (forall tr name out,
      answerOutput host tr (getent name) = (out, None) ->
      (2 <= strings.Count out ":")%nat) ->
  forall (i : nat) (ids : list Z) (w : World),
    (n <> O -> i + n <= List.length names)%nat ->
    forall p, fst (groupIdsLoop names n i ids w) <> Panicked p.
Proof.
  intros Hrec. induction n as [|n IH]; intros i ids w Hlen p.
  - discriminate.
  - assert (Hi : (i < List.length names)%nat)
      by (specialize (Hlen ltac:(discriminate)); lia).
    destruct (nth_error names i) as [name|] eqn:Hn;
      [|apply nth_error_None in Hn; lia].
    rewrite (groupIdsLoop_step names n i ids w name Hn). cbv zeta.
    destruct (answerOutput host (trace w) (getent name)) as [out [e|]] eqn:Ha;
      [discriminate|].
    apply Hrec in Ha. apply third_field_iff in Ha. destruct Ha as [field ->].
    destruct (strconv.Atoi (strings.TrimSpace field)) as [id [e|]];
      [discriminate|].
    apply IH. intros _. specialize (Hlen ltac:(discriminate)). lia.
Qed.

(** ** Credential resolution *)

(** C1. In a run of [getUserCredentials] in which every lookup succeeds
    (the uid, gid and group-list commands answer without error, their
    outputs parse, and the loop over the group names runs to its end),
    the credential is returned when the parsed uid and gid are both
    greater than zero, and otherwise the result is the error "invalid
    uid and gid" with zero uid and gid and no groups. *)
Theorem getUserCredentials_accepts_positive_ids_only
        (w w4 : World) (out1 out2 out3 : string) (uid gid : Z)
        (groupIds : list Z) :
  let w1 := record (EvOutput uidCmd) w in
  let w2 := record (EvOutput gidCmd) w1 in
  let w3 := record (EvOutput groupsCmd) w2 in
  let groupNames := strings.Split out3 " " in
  answerOutput host (trace w) uidCmd = (out1, None) ->
  strconv.Atoi (strings.TrimSpace out1) = (uid, None) ->
  answerOutput host (trace w1) gidCmd = (out2, None) ->
  strconv.Atoi (strings.TrimSpace out2) = (gid, None) ->
  answerOutput host (trace w2) groupsCmd = (out3, None) ->
  groupIdsLoop groupNames (List.length groupNames - 2) 2 [] w3
  = (Returned (inl groupIds), w4) ->
  (0 < uid /\ 0 < gid ->
   getUserCredentials w
   = (Returned (uint32 uid, uint32 gid, groupIds, None), w4)) /\
  (uid <= 0 \/ gid <= 0 ->
   getUserCredentials w
   = (Returned (0, 0, [], Some (errorString "invalid uid and gid")), w4)).
Proof.
  intros w1 w2 w3 groupNames H1 P1 H2 P2 H3 HL.
  rewrite getUserCredentials_run. cbv zeta.
  rewrite H1, P1. fold w1. rewrite H2, P2. fold w2. rewrite H3.
  fold w3. fold groupNames. rewrite HL. unfold failed.
  split.
  - intros [Hu Hg].
    apply Z.ltb_lt in Hu. apply Z.ltb_lt in Hg. now rewrite Hu, Hg.
  - intros [Hu|Hg].
    + apply Z.ltb_ge in Hu. now rewrite Hu.
    + apply Z.ltb_ge in Hg. rewrite Hg. now rewrite andb_false_r.
Qed.



Lemma getUserCredentials_no_panic (w : World) :
  (forall tr name out,
      answerOutput host tr (getent name) = (out, None) ->
      (2 <= strings.Count out ":")%nat) ->
  forall p, fst (getUserCredentials w) <> Panicked p.
Proof.
  intros Hrec p. rewrite getUserCredentials_run. cbv zeta. unfold failed.
  destruct (answerOutput host (trace w) uidCmd) as [out1 [e|]];
    [discriminate|].
  destruct (strconv.Atoi (strings.TrimSpace out1)) as [u [e|]];
    [discriminate|].
  destruct (answerOutput host (trace (record (EvOutput uidCmd) w)) gidCmd)
    as [out2 [e|]]; [discriminate|].
  destruct (strconv.Atoi (strings.TrimSpace out2)) as [g [e|]];
    [discriminate|].
  destruct (answerOutput host
              (trace (record (EvOutput gidCmd) (record (EvOutput uidCmd) w)))
              groupsCmd) as [out3 [e|]]; [discriminate|].
  pose proof (groupIdsLoop_no_panic (strings.Split out3 " ")
                (List.length (strings.Split out3 " ") - 2) Hrec 2 []
                (record (EvOutput groupsCmd)
                   (record (EvOutput gidCmd) (record (EvOutput uidCmd) w)))
                (getUserCredentials_loop_bound out3)) as Hnp.
  destruct (groupIdsLoop (strings.Split out3 " ")
              (List.length (strings.Split out3 " ") - 2) 2 []
              (record (EvOutput groupsCmd)
                 (record (EvOutput gidCmd) (record (EvOutput uidCmd) w))))
    as [[[ids|e]|q] w4]; cbn [fst] in *.
  - destruct ((0 <? u) && (0 <? g)); discriminate.
  - discriminate.
  - now destruct (Hnp q).
Qed.

(** C10. The third field of a group record is read by position: the read
    succeeds exactly when the record holds at least two [":"], and with
    fewer it is out of range.  The loop reads it unchecked, so a lookup
    that succeeds with such an answer makes the round panic; when every
    answer to a group lookup holds two [":"], [getUserCredentials] does
    not panic. *)
Theorem group_record_third_field_unchecked :
  (forall (out : string) (w : World),
      ((exists field,
           index (strings.Split out ":") 2 w = (Returned field, w)) <->
       (2 <= strings.Count out ":")%nat) /\
      ((strings.Count out ":" < 2)%nat ->
       index (strings.Split out ":") 2 w
       = (Panicked (IndexOutOfRange 2 (S (strings.Count out ":"))), w))) /\
  (forall (names : list string) (n i : nat) (ids : list Z) (w : World)
          (name out : string),
      nth_error names i = Some name ->
      answerOutput host (trace w) (getent name) = (out, None) ->
      (strings.Count out ":" < 2)%nat ->
      fst (groupIdsLoop names (S n) i ids w)
      = Panicked (IndexOutOfRange 2 (S (strings.Count out ":")))) /\
  ((forall tr name out,
       answerOutput host tr (getent name) = (out, None) ->
       (2 <= strings.Count out ":")%nat) ->
   forall (w : World) p, fst (getUserCredentials w) <> Panicked p).
Proof.
  split; [|split].
  - intros out w. unfold index, ret, panic. split.
    + rewrite <- third_field_iff. split.
      * intros [field H]. exists field.
        destruct (nth_error (strings.Split out ":") 2); congruence.
      * intros [field ->]. now exists field.
    + intros Hlt.
      destruct (nth_error (strings.Split out ":") 2) as [field|] eqn:E.
      * assert (2 <= strings.Count out ":")%nat
          by (apply third_field_iff; now exists field). lia.
      * now rewrite Split_length.
  - intros names n i ids w name out Hn Ha Hlt.
    rewrite (groupIdsLoop_step names n i ids w name Hn). cbv zeta.
    rewrite Ha.
    destruct (nth_error (strings.Split out ":") 2) as [field|] eqn:E.
    + assert (2 <= strings.Count out ":")%nat
        by (apply third_field_iff; now exists field). lia.
    + cbn [fst]. now rewrite Split_length.
  - intros Hrec w p. now apply getUserCredentials_no_panic.
Qed.

(** ** [StartPty], by what the host answers *)

Lemma StartPty_run (runAsSsmUser : bool) (shellCmd : string) (w : World) :
  StartPty runAsSsmUser shellCmd w =
  if runAsSsmUser then
    match getUserCredentials (beforeResolve w) with
    | (Returned (uid, gid, groups, None), w2) =>
        startCmd (withCredential (preparedCmd shellCmd w) uid gid groups) w2
    | (Returned (_, _, _, Some e), w2) => (Returned (None, None, Some e), w2)
    | (Panicked p, w2) => (Panicked p, w2)
    end
  else startCmd (preparedCmd shellCmd w) (record (EvInfo "Starting pty") w).
Proof.
  unfold StartPty, preparedCmd, beforeResolve, withCredential.
  unfold bind at 1. unfold log.Info, emit.
  unfold bind at 1. unfold os.Environ.
  unfold bind at 1. unfold os.Getenv. cbn [environ record].
  destruct runAsSsmUser; [|reflexivity].
  unfold bind at 1. unfold CreateLocalAdminUser, emit.
  unfold bind at 1.
  destruct (getUserCredentials
              (record EvCreateLocalAdminUser (record (EvInfo "Starting pty") w)))
    as [[[[[uid gid] groups] [e|]]|p] w2]; reflexivity.
Qed.

Lemma startCmd_run (cmd : exec.Cmd) (w : World) :
  startCmd cmd w =
  match answerPtyStart host (trace w) cmd with
  | Some e =>
      (Returned (None, None,
                 Some (fmtErrorf ("Failed to start pty: %s" ++ newLineCharacter) e)),
       {| environ := environ w; ptyFile := None; nextFile := nextFile w;
          closedFiles := closedFiles w;
          trace := (trace w ++
                    [EvPtyStart cmd;
                     EvErrorf ("Failed to start pty: %s" ++ newLineCharacter)
                              [ArgError e]])%list |})
  | None =>
      (Returned (Some (nextFile w), Some (nextFile w), None),
       {| environ := environ w; ptyFile := Some (nextFile w);
          nextFile := S (nextFile w); closedFiles := closedFiles w;
          trace := (trace w ++ [EvPtyStart cmd])%list |})
  end.
Proof.
  unfold startCmd, bind, pty_Start, setPtyFile, getPtyFile, log.Errorf, emit,
    ret, record.
  destruct (answerPtyStart host (trace w) cmd) as [e|]; cbn.
  - now rewrite <- app_assoc.
  - reflexivity.
Qed.

(** [startCmd] starts [cmd] and nothing else. *)
Lemma startCmd_ptyStarts (cmd : exec.Cmd) (w : World) :
  exists evs, trace (snd (startCmd cmd w)) = (trace w ++ evs)%list /\
              ptyStarts evs = [cmd].
Proof.
  rewrite startCmd_run.
  destruct (answerPtyStart host (trace w) cmd) as [e|]; cbn [snd trace];
    eexists; split; reflexivity.
Qed.

(** [getUserCredentials] only runs commands and logs. *)
Lemma getUserCredentials_trace (w : World) :
  exists evs,
    trace (snd (getUserCredentials w)) = (trace w ++ evs)%list /\
    ptyStarts evs = [] /\
    sameProcess w (snd (getUserCredentials w)).
Proof.
  rewrite getUserCredentials_run. cbv zeta. unfold failed.
  destruct (answerOutput host (trace w) uidCmd) as [out1 [e|]].
  { eexists. cbn. rewrite <- app_assoc. unfold sameProcess. cbn.
    repeat split; reflexivity. }
  destruct (strconv.Atoi (strings.TrimSpace out1)) as [u [e|]].
  { eexists. cbn. rewrite <- app_assoc. unfold sameProcess. cbn.
    repeat split; reflexivity. }
  destruct (answerOutput host (trace (record (EvOutput uidCmd) w)) gidCmd)
    as [out2 [e|]].
  { eexists. cbn. rewrite <- !app_assoc. unfold sameProcess. cbn.
    repeat split; reflexivity. }
  destruct (strconv.Atoi (strings.TrimSpace out2)) as [g [e|]].
  { eexists. cbn. rewrite <- !app_assoc. unfold sameProcess. cbn.
    repeat split; reflexivity. }
  destruct (answerOutput host
              (trace (record (EvOutput gidCmd) (record (EvOutput uidCmd) w)))
              groupsCmd) as [out3 [e|]].
  { eexists. cbn. rewrite <- !app_assoc. unfold sameProcess. cbn.
    repeat split; reflexivity. }
  destruct (groupIdsLoop_trace (strings.Split out3 " ")
              (List.length (strings.Split out3 " ") - 2) 2 []
              (record (EvOutput groupsCmd)
                 (record (EvOutput gidCmd) (record (EvOutput uidCmd) w)))
              (getUserCredentials_loop_bound out3))
    as (k & evs & _ & Htr & _ & Hpty & Hsame & _).
  destruct (groupIdsLoop (strings.Split out3 " ")
              (List.length (strings.Split out3 " ") - 2) 2 []
              (record (EvOutput groupsCmd)
                 (record (EvOutput gidCmd) (record (EvOutput uidCmd) w))))
    as [r w4].
  cbn [snd] in Htr, Hsame.
  exists ([EvOutput uidCmd; EvOutput gidCmd; EvOutput groupsCmd] ++ evs)%list.
  assert (Hw4 : trace w4
                = (trace w ++
                   [EvOutput uidCmd; EvOutput gidCmd; EvOutput groupsCmd]
                   ++ evs)%list).
  { rewrite Htr. cbn [trace record]. rewrite <- !app_assoc. reflexivity. }
  assert (Hp : ptyStarts
                 ([EvOutput uidCmd; EvOutput gidCmd; EvOutput groupsCmd]
                    ++ evs)%list = []).
  { rewrite ptyStarts_app, Hpty. reflexivity. }
  destruct r as [[ids|e]|p]; [destruct ((0 <? u) && (0 <? g))| |];
    cbn [snd]; repeat split; try exact Hw4; try exact Hp; apply Hsame.
Qed.

(** What [StartPty] starts on a PTY: the prepared command when the runas
    user is not asked for; with it, the prepared command under the
    resolved credential, and nothing when resolution fails or panics. *)
Lemma StartPty_false_ptyStarts (shellCmd : string) (w : World) :
  ptyStarts (newEvents w (snd (StartPty false shellCmd w)))
  = [preparedCmd shellCmd w].
Proof.
  rewrite StartPty_run.
  destruct (startCmd_ptyStarts (preparedCmd shellCmd w)
              (record (EvInfo "Starting pty") w)) as (evs & Htr & Hpty).
  rewrite (newEvents_app w _ (EvInfo "Starting pty" :: evs)).
  - cbn. exact Hpty.
  - rewrite Htr. cbn. now rewrite <- app_assoc.
Qed.

Lemma StartPty_true_ptyStarts (shellCmd : string) (w : World) :
  ptyStarts (newEvents w (snd (StartPty true shellCmd w)))
  = match fst (getUserCredentials (beforeResolve w)) with
    | Returned (uid, gid, groups, None) =>
        [withCredential (preparedCmd shellCmd w) uid gid groups]
    | _ => []
    end.
Proof.
  rewrite StartPty_run.
  destruct (getUserCredentials_trace (beforeResolve w)) as (evs & Htr & Hpty & _).
  destruct (getUserCredentials (beforeResolve w))
    as [[[[[uid gid] groups] [e|]]|p] w2]; cbn [fst snd] in *.
  - rewrite (newEvents_app w w2
               (EvInfo "Starting pty" :: EvCreateLocalAdminUser :: evs)).
    + cbn. exact Hpty.
    + rewrite Htr. cbn. now rewrite <- !app_assoc.
  - destruct (startCmd_ptyStarts
                (withCredential (preparedCmd shellCmd w) uid gid groups) w2)
      as (evs2 & Htr2 & Hpty2).
    rewrite (newEvents_app w _
               (EvInfo "Starting pty" :: EvCreateLocalAdminUser :: evs ++ evs2)).
    + cbn. now rewrite ptyStarts_app, Hpty, Hpty2.
    + rewrite Htr2, Htr. cbn. now rewrite <- !app_assoc.
  - rewrite (newEvents_app w w2
               (EvInfo "Starting pty" :: EvCreateLocalAdminUser :: evs)).
    + cbn. exact Hpty.
    + rewrite Htr. cbn. now rewrite <- !app_assoc.
Qed.

Lemma StartPty_ptyStarts (runAsSsmUser : bool) (shellCmd : string)
      (w : World) (c : exec.Cmd) :
  In c (ptyStarts (newEvents w (snd (StartPty runAsSsmUser shellCmd w)))) ->
  c = preparedCmd shellCmd w \/
  exists uid gid groups,
    c = withCredential (preparedCmd shellCmd w) uid gid groups.
Proof.
  destruct runAsSsmUser.
  - rewrite StartPty_true_ptyStarts.
    destruct (fst (getUserCredentials (beforeResolve w)))
      as [[[[uid gid] groups] [e|]]|p]; cbn; try tauto.
    intros [<-|[]]. right. now exists uid, gid, groups.
  - rewrite StartPty_false_ptyStarts. cbn. intros [<-|[]]. now left.
Qed.

Lemma preparedCmd_Args (shellCmd : string) (w : World) :
  exec.Name (preparedCmd shellCmd w) = "sh" /\
  exec.Args (preparedCmd shellCmd w)
  = if String.eqb (strings.TrimSpace shellCmd) "" then ["sh"]
    else ("sh" :: ShellPluginCommandArgs ++ [shellCmd])%list.
Proof.
  unfold preparedCmd.
  destruct (String.eqb (os.lookup langEnvVariableKey (environ w)) "");
    destruct (String.eqb (strings.TrimSpace shellCmd) ""); split; reflexivity.
Qed.


(** An entry defines [key] exactly when it reads [key=value]. *)
Lemma valueOf_Some (entry key v : string) :
  os.valueOf key entry = Some v -> entry = key ++ String "=" v.
Proof.
  revert key. induction entry as [|c r IH]; intros key H; cbn in H;
    [discriminate|].
  destruct (Ascii.eqb c "=") eqn:E.
  - apply Ascii.eqb_eq in E. subst c.
    destruct key; [|discriminate]. now injection H as ->.
  - destruct key as [|k key']; [discriminate|].
    destruct (Ascii.eqb c k) eqn:E'; [|discriminate].
    apply Ascii.eqb_eq in E'. subst k. cbn. f_equal. now apply IH.
Qed.

(** Without an entry for [key], [os.Getenv(key)] is empty. *)
Lemma lookup_unset (key : string) (env : list string) :
  (forall v, ~ In (key ++ String "=" v) env) -> os.lookup key env = "".
Proof.
  induction env as [|e env IH]; intros H; [reflexivity|].
  cbn. destruct (os.valueOf key e) as [v|] eqn:E.
  - apply valueOf_Some in E. destruct (H v). now left.
  - apply IH. intros v Hin. apply (H v). now right.
Qed.

(** ** The command [StartPty] starts *)

(** C2. Whatever [StartPty] starts on a PTY is [sh]: with no argument
    when [shellCmd] trimmed of white space is empty, and otherwise with
    the arguments [ShellPluginCommandArgs] followed by [shellCmd] whole,
    as one argument.  Exactly one command is started without the runas
    user, and with it whenever [getUserCredentials] returns no error. *)
Theorem StartPty_shell_arguments (runAsSsmUser : bool) (shellCmd : string)
        (w : World) :
  let started :=
    ptyStarts (newEvents w (snd (StartPty runAsSsmUser shellCmd w))) in
  (runAsSsmUser = false -> exists c, started = [c]) /\
  (forall uid gid groups,
      runAsSsmUser = true ->
      fst (getUserCredentials (beforeResolve w))
      = Returned (uid, gid, groups, None) ->
      exists c, started = [c]) /\
  (forall c, In c started ->
     exec.Name c = "sh" /\
     (strings.TrimSpace shellCmd = "" -> exec.Args c = ["sh"]) /\
     (strings.TrimSpace shellCmd <> "" ->
      exec.Args c = ("sh" :: ShellPluginCommandArgs ++ [shellCmd])%list)).
Proof.
  cbv zeta. split; [|split].
  - intros ->. rewrite StartPty_false_ptyStarts. now eexists.
  - intros uid gid groups -> Hres. rewrite StartPty_true_ptyStarts, Hres.
    now eexists.
  - intros c Hc.
    assert (Hargs : exec.Name c = "sh" /\
                    exec.Args c = exec.Args (preparedCmd shellCmd w)).
    { destruct (StartPty_ptyStarts _ _ _ _ Hc) as [->|(uid & gid & groups & ->)];
        split; try reflexivity; apply preparedCmd_Args. }
    destruct Hargs as [Hp Ha]. rewrite Ha.
    rewrite (proj2 (preparedCmd_Args shellCmd w)).
    split; [exact Hp|]. split.
    + intros ->. reflexivity.
    + intros Hne. apply String.eqb_neq in Hne. now rewrite Hne.
Qed.


(** C3. When [getUserCredentials] returns an error, [StartPty true]
    returns that same error with [nil] handles and stops there: nothing
    is started on a PTY, no file is opened, [ptyFile] keeps its value.
    When it returns no error, the one command started carries the
    credential made of the resolved uid, gid and groups, with
    [NoSetGroups] false, so the groups of the child are set to that
    list. *)
Theorem StartPty_runas_credential (shellCmd : string) (w w2 : World)
        (uid gid : Z) (groups : list Z) (err : option error) :
  getUserCredentials (beforeResolve w) = (Returned (uid, gid, groups, err), w2) ->
  (forall e, err = Some e ->
     StartPty true shellCmd w = (Returned (None, None, Some e), w2) /\
     ptyStarts (newEvents w w2) = [] /\
     nextFile w2 = nextFile w /\ closedFiles w2 = closedFiles w /\
     ptyFile w2 = ptyFile w) /\
  (err = None ->
     exists c,
       ptyStarts (newEvents w (snd (StartPty true shellCmd w))) = [c] /\
       exec.SysProcAttr c
       = Some {| syscall.Cred :=
                   Some {| syscall.Uid := uid; syscall.Gid := gid;
                           syscall.Groups := groups;
                           syscall.NoSetGroups := false |} |}).
Proof.
  intros Hres. split.
  - intros e ->.
    pose proof (StartPty_true_ptyStarts shellCmd w) as Hpty.
    pose proof (getUserCredentials_trace (beforeResolve w)) as (evs & _ & _ & Hs).
    rewrite StartPty_run in *. rewrite Hres in *. cbn [fst snd] in *.
    split; [reflexivity|]. split; [exact Hpty|].
    destruct Hs as (_ & Hf & Hn & Hc). cbn in Hf, Hn, Hc. auto.
  - intros ->.
    rewrite StartPty_true_ptyStarts, Hres. cbn [fst].
    eexists. split; reflexivity.
Qed.

(** ** [SetSize] and [Stop] *)

Lemma SetSize_run (ws_col ws_row : Z) (w : World) :
  SetSize ws_col ws_row w =
  let winSize := {| pty.Rows := uint16 ws_row; pty.Cols := uint16 ws_col |} in
  (Returned
     match
       match ptyFile w with
       | Some f =>
           if isOpen w f then answerSetsize host (trace w) f winSize
           else Some EBADF
       | None => Some EBADF
       end
     with
     | Some e => Some (fmtErrorf "set pty size failed: %s" e)
     | None => None
     end,
   record (EvSetsize (ptyFile w) winSize) w).
Proof.
  unfold SetSize, bind, getPtyFile, pty_Setsize, ret. cbv zeta.
  destruct (ptyFile w) as [f|]; [destruct (isOpen w f)|]; try reflexivity;
    destruct (answerSetsize host (trace w) f _); reflexivity.
Qed.

(** A [StartPty] that returns an error leaves a [nil] [ptyFile] [nil]. *)
Lemma StartPty_error_keeps_nil (runAsSsmUser : bool) (shellCmd : string)
      (w : World) (stdin stdout : option File) (e : error) :
  ptyFile w = None ->
  fst (StartPty runAsSsmUser shellCmd w) = Returned (stdin, stdout, Some e) ->
  ptyFile (snd (StartPty runAsSsmUser shellCmd w)) = None.
Proof.
  intros Hnil. rewrite StartPty_run. destruct runAsSsmUser.
  - destruct (getUserCredentials_trace (beforeResolve w))
      as (evs & _ & _ & _ & Hf & _).
    destruct (getUserCredentials (beforeResolve w))
      as [[[[[uid gid] groups] [e'|]]|p] w2]; cbn [fst snd] in *.
    + intros _. now rewrite Hf.
    + rewrite startCmd_run.
      destruct (answerPtyStart host (trace w2) _); [reflexivity|discriminate].
    + discriminate.
  - rewrite startCmd_run.
    destruct (answerPtyStart host _ _); [reflexivity|discriminate].
Qed.

(** C7. While [ptyFile] is [nil], as it is until a [StartPty] succeeds,
    [SetSize] returns the error "set pty size failed" for every columns
    and rows; it neither succeeds nor panics.  A [StartPty] that returns
    an error leaves [ptyFile] [nil]. *)
Theorem SetSize_before_start_fails (ws_col ws_row : Z) (w : World) :
  ptyFile w = None ->
  fst (SetSize ws_col ws_row w)
  = Returned (Some (fmtErrorf "set pty size failed: %s" EBADF)) /\
  (forall runAsSsmUser shellCmd stdin stdout e,
      fst (StartPty runAsSsmUser shellCmd w) = Returned (stdin, stdout, Some e) ->
      fst (SetSize ws_col ws_row (snd (StartPty runAsSsmUser shellCmd w)))
      = Returned (Some (fmtErrorf "set pty size failed: %s" EBADF))).
Proof.
  intros Hnil. split.
  - rewrite SetSize_run. cbv zeta. now rewrite Hnil.
  - intros runAsSsmUser shellCmd stdin stdout e Hfail.
    rewrite SetSize_run. cbv zeta.
    now rewrite (StartPty_error_keeps_nil _ _ _ _ _ _ Hnil Hfail).
Qed.

(** C9, as the code has it. [SetSize] hands [pty.Setsize] the columns
    and rows converted to [uint16], that is modulo 65536, on the file
    [ptyFile]; these are the given columns and rows when both are below
    65536.  On an open file the result is the host's answer, wrapped
    when it is an error. *)
Theorem SetSize_applies_uint16 (ws_col ws_row : Z) (w : World) :
  newEvents w (snd (SetSize ws_col ws_row w))
  = [EvSetsize (ptyFile w)
               {| pty.Rows := ws_row mod 2 ^ 16; pty.Cols := ws_col mod 2 ^ 16 |}]
  /\
  (0 <= ws_col < 2 ^ 16 -> 0 <= ws_row < 2 ^ 16 ->
   newEvents w (snd (SetSize ws_col ws_row w))
   = [EvSetsize (ptyFile w) {| pty.Rows := ws_row; pty.Cols := ws_col |}])
  /\
  (forall f, ptyFile w = Some f -> isOpen w f = true ->
     fst (SetSize ws_col ws_row w)
     = Returned
         match answerSetsize host (trace w) f
                 {| pty.Rows := ws_row mod 2 ^ 16;
                    pty.Cols := ws_col mod 2 ^ 16 |} with
         | Some e => Some (fmtErrorf "set pty size failed: %s" e)
         | None => None
         end).
Proof.
  rewrite SetSize_run. cbv zeta. cbn [fst snd]. unfold uint16.
  split; [|split].
  - now apply newEvents_app.
  - intros Hc Hr. apply newEvents_app. cbn [trace record].
    now rewrite !Z.mod_small.
  - intros f -> ->. reflexivity.
Qed.

Lemma Stop_run (w : World) :
  Stop w =
  let w1 := record (EvInfo "Stopping pty") w in
  match Close (ptyFile w) w1 with
  | (Returned (Some e), w2) =>
      (Returned (Some (fmtErrorf "unable to close ptyFile. %s" e)), w2)
  | (Returned None, w2) => (Returned None, w2)
  | (Panicked p, w2) => (Panicked p, w2)
  end.
Proof.
  unfold Stop. unfold bind at 1. unfold log.Info, emit.
  unfold bind at 1. unfold getPtyFile. cbn [ptyFile record].
  unfold bind at 1.
  destruct (Close (ptyFile w) (record (EvInfo "Stopping pty") w))
    as [[[e|]|p] w2]; reflexivity.
Qed.

Lemma isOpen_record (ev : Event) (w : World) (f : File) :
  isOpen (record ev w) f = isOpen w f.
Proof. reflexivity. Qed.

(** C8. On an open [ptyFile], [Stop] logs, closes the file and does
    nothing else: the file is then closed and the result is the host's
    answer to the close, wrapped when it is an error.  On a [ptyFile]
    that is closed already [Stop] returns the error "unable to close
    ptyFile"; so does every [Stop] that follows a [Stop]. *)
Theorem Stop_closes_once (w : World) (f : File) :
  ptyFile w = Some f ->
  (isOpen w f = true ->
   Stop w
   = (Returned
        match answerClose host (trace w ++ [EvInfo "Stopping pty"]) f with
        | Some e => Some (fmtErrorf "unable to close ptyFile. %s" e)
        | None => None
        end,
      {| environ := environ w; ptyFile := Some f; nextFile := nextFile w;
         closedFiles := f :: closedFiles w;
         trace := (trace w ++ [EvInfo "Stopping pty"; EvClose (Some f)])%list |}))
  /\
  (isOpen w f = false ->
   fst (Stop w)
   = Returned (Some (fmtErrorf "unable to close ptyFile. %s"
                               (PathError "close" ptmx ErrClosed))) /\
   newEvents w (snd (Stop w)) = [EvInfo "Stopping pty"; EvClose (Some f)])
  /\
  fst (Stop (snd (Stop w)))
  = Returned (Some (fmtErrorf "unable to close ptyFile. %s"
                              (PathError "close" ptmx ErrClosed))).
Proof.
  intros Hf.
  assert (Hclosed : forall w', ptyFile w' = Some f -> isOpen w' f = false ->
            Stop w'
            = (Returned (Some (fmtErrorf "unable to close ptyFile. %s"
                                         (PathError "close" ptmx ErrClosed))),
               record (EvClose (Some f)) (record (EvInfo "Stopping pty") w'))).
  { intros w' Hf' Hc. rewrite Stop_run. cbv zeta. rewrite Hf'. unfold Close.
    rewrite isOpen_record, Hc. reflexivity. }
  assert (Hopen : isOpen w f = true ->
            Stop w
            = (Returned
                 match answerClose host (trace w ++ [EvInfo "Stopping pty"]) f with
                 | Some e => Some (fmtErrorf "unable to close ptyFile. %s" e)
                 | None => None
                 end,
               {| environ := environ w; ptyFile := Some f;
                  nextFile := nextFile w; closedFiles := f :: closedFiles w;
                  trace := (trace w ++ [EvInfo "Stopping pty"; EvClose (Some f)])%list |})).
  { intros Ho. rewrite Stop_run. cbv zeta. rewrite Hf. unfold Close.
    rewrite isOpen_record, Ho.
    cbn [trace record ptyFile environ nextFile closedFiles]. unfold record.
    cbn [trace record ptyFile environ nextFile closedFiles].
    rewrite <- app_assoc. cbn [app]. rewrite Hf.
    destruct (answerClose host (trace w ++ [EvInfo "Stopping pty"]) f);
      reflexivity. }
  split; [exact Hopen|]. split.
  - intros Hc. rewrite (Hclosed w Hf Hc). cbn [fst snd]. split; [reflexivity|].
    apply newEvents_app. cbn. now rewrite <- app_assoc.
  - destruct (isOpen w f) eqn:Ho.
    + rewrite (Hopen eq_refl). cbn [snd]. rewrite Hclosed; [reflexivity| |].
      * reflexivity.
      * unfold isOpen. cbn. rewrite Nat.eqb_refl. cbn.
        now rewrite andb_false_r.
    + rewrite (Hclosed w Hf Ho). cbn [snd]. rewrite Hclosed; [reflexivity| |].
      * exact Hf.
      * exact Ho.
Qed.

(** ** The script of [generateLogData] *)

(** C6. When the [StartPty] of the shadow session returns an error,
    [generateLogData] returns that error and does nothing after it: no
    write is made.  When it returns none, [generateLogData] returns no
    error after writing to the shadow session, in this order and each
    followed by its sleep, the buffer-size command [screen -h] with the
    configured size, the record command [script] with the log file, the
    logger command with the IPC file and [false], and three exit
    commands, each ended by a line feed, and then closing the session's
    input.  The results of the writes are not looked at, so this holds
    whether or not they succeed. *)
Theorem generateLogData_script (p : ShellPlugin) (w : World)
        (stdin stdout : option File) (err : option error) :
  fst (StartPty false "" w) = Returned (stdin, stdout, err) ->
  let started := snd (StartPty false "" w) in
  let lf := String "010" EmptyString in
  let second := 1000000000 in
  (forall e, err = Some e ->
     generateLogData p w = (Returned (Some e), started) /\
     writes (newEvents w started) = []) /\
  (err = None ->
     fst (generateLogData p w) = Returned None /\
     newEvents started (snd (generateLogData p w))
     = [EvSleep (5 * second);
        EvWrite stdin
          ("screen -h " ++ NilZero.string_of_int (Z.to_int ScreenBufferSize)
             ++ lf);
        EvSleep (5 * second);
        EvWrite stdin ("script " ++ logFilePath p ++ lf);
        EvSleep (5 * second);
        EvWrite stdin
          (DefaultSessionLogger ++ " " ++ ipcFilePath p ++ " false" ++ lf);
        EvSleep (60 * second);
        EvWrite stdin (Exit ++ lf);
        EvSleep (30 * second);
        EvWrite stdin (Exit ++ lf);
        EvSleep (5 * second);
        EvWrite stdin (Exit ++ lf);
        EvSleep (5 * second);
        EvClose stdin;
        EvSleep (15 * second)]).
Proof.
  intros Hstart started lf second. subst started lf second.
  remember (generateLogData p w) as g eqn:Hg.
  unfold generateLogData in Hg. unfold bind at 1 in Hg. cbv beta in Hg.
  destruct (StartPty false "" w) as [[[[i o] e']|q] w1] eqn:Hs;
    cbn [fst snd] in *; [|discriminate].
  injection Hstart as -> -> ->.
  split.
  - intros e ->. split; [exact Hg|].
    pose proof (f_equal snd Hs) as Hw. cbn [snd] in Hw. subst w1.
    rewrite StartPty_run, startCmd_run.
    destruct (answerPtyStart host _ _); cbn [snd];
      (erewrite newEvents_app;
       [|cbn [trace record]; rewrite <- app_assoc; reflexivity]);
      reflexivity.
  - intros ->. unfold deferRecover in Hg.
    unfold bind, time.Sleep, emit, Write, Close, ret in Hg.
    cbn [fst snd] in Hg.
    destruct stdin as [f|].
    + match type of Hg with
      | context [isOpen ?w' f] => destruct (isOpen w' f)
      end; subst g; cbn [fst snd]; (split; [reflexivity|]);
        apply newEvents_app; cbn [trace record];
        rewrite <- !app_assoc; reflexivity.
    + subst g. cbn [fst snd]. split; [reflexivity|].
      apply newEvents_app. cbn [trace record].
      rewrite <- !app_assoc. reflexivity.
Qed.

(** ** More on credential resolution *)

(** Splits the goal along the answers [getUserCredentials] gets. *)
Ltac answers :=
  repeat match goal with
         | |- context [match answerOutput ?h ?t ?c with _ => _ end] =>
             destruct (answerOutput h t c) as [? [?|]] eqn:?
         | |- context [match strconv.Atoi ?s with _ => _ end] =>
             destruct (strconv.Atoi s) as [? [?|]] eqn:?
         end.

(** The ids the loop adds: one for each round, each a [uint32]. *)
Lemma groupIdsLoop_ids (names : list string) (n : nat) :
  forall (i : nat) (ids ids' : list Z) (w : World),
    (n <> O -> i + n <= List.length names)%nat ->
    fst (groupIdsLoop names n i ids w) = Returned (inl ids') ->
    exists new,
      ids' = (ids ++ new)%list /\ List.length new = n /\
      Forall (fun id => 0 <= id < 2 ^ 32) new.
Proof.
  induction n as [|n IH]; intros i ids ids' w Hlen Hr.
  - cbn in Hr. injection Hr as <-. exists []. rewrite app_nil_r. auto.
  - assert (Hi : (i < List.length names)%nat)
      by (specialize (Hlen ltac:(discriminate)); lia).
    destruct (nth_error names i) as [name|] eqn:Hn;
      [|apply nth_error_None in Hn; lia].
    rewrite (groupIdsLoop_step names n i ids w name Hn) in Hr. cbv zeta in Hr.
    destruct (answerOutput host (trace w) (getent name)) as [out [e|]];
      [discriminate|].
    destruct (nth_error (strings.Split out ":") 2) as [field|];
      [|discriminate].
    destruct (strconv.Atoi (strings.TrimSpace field)) as [id [e|]];
      [discriminate|].
    apply IH in Hr; [|intros _; specialize (Hlen ltac:(discriminate)); lia].
    destruct Hr as (new & -> & Hl & Hall).
    exists (uint32 id :: new). rewrite <- app_assoc. cbn.
    split; [reflexivity|]. split; [now rewrite Hl|].
    constructor; [|exact Hall]. unfold uint32. apply Z.mod_pos_bound. lia.
Qed.

(** The events of the loop: lookups, then at most one logged error, which
    is there only when a round has returned an error. *)
Lemma groupIdsLoop_events (names : list string) (n : nat) :
  forall (i : nat) (ids : list Z) (w : World),
    (n <> O -> i + n <= List.length names)%nat ->
    exists cmds logs,
      trace (snd (groupIdsLoop names n i ids w))
      = (trace w ++ map EvOutput cmds ++ logs)%list /\
      (logs = [] \/ exists format args, logs = [EvErrorf format args]) /\
      (forall ids', fst (groupIdsLoop names n i ids w) = Returned (inl ids') ->
                    logs = []) /\
      (forall p, fst (groupIdsLoop names n i ids w) = Panicked p -> logs = []).
Proof.
  induction n as [|n IH]; intros i ids w Hlen.
  - exists [], []. cbn. rewrite app_nil_r. auto.
  - assert (Hi : (i < List.length names)%nat)
      by (specialize (Hlen ltac:(discriminate)); lia).
    destruct (nth_error names i) as [name|] eqn:Hn;
      [|apply nth_error_None in Hn; lia].
    rewrite (groupIdsLoop_step names n i ids w name Hn). cbv zeta.
    destruct (answerOutput host (trace w) (getent name)) as [out [e|]].
    + exists [getent name], [EvErrorf "Failed to retrieve group id for %s: %v" [ArgString name; ArgError e]].
      cbn. rewrite <- app_assoc.
      repeat split; try reflexivity; try discriminate. right. eauto.
    + destruct (nth_error (strings.Split out ":") 2) as [field|].
      * destruct (strconv.Atoi (strings.TrimSpace field)) as [id [e|]].
        -- exists [getent name], [EvErrorf "%s group id not found: %v" [ArgString name; ArgError e]].
           cbn. rewrite <- app_assoc.
           repeat split; try reflexivity; try discriminate. right. eauto.
        -- destruct (IH (S i) (ids ++ [uint32 id])%list
                        (record (EvOutput (getent name)) w))
             as (cmds & logs & Htr & Hlogs & Hok & Hp).
           { intros _. specialize (Hlen ltac:(discriminate)). lia. }
           exists (getent name :: cmds), logs.
           split; [|auto].
           rewrite Htr. cbn. now rewrite <- app_assoc.
      * exists [getent name], []. cbn. auto.
Qed.

(** X1. Whenever [getUserCredentials] returns an error, whichever step
    it comes from, the uid and gid it returns are zero and the groups
    are [nil]. *)
Theorem getUserCredentials_error_returns_zero
        (w w' : World) (uid gid : Z) (groups : list Z) (e : error) :
  getUserCredentials w = (Returned (uid, gid, groups, Some e), w') ->
  uid = 0 /\ gid = 0 /\ groups = [].
Proof.
  rewrite getUserCredentials_run. cbv zeta. unfold failed. answers;
    try (intros H; injection H as <- <- <- _ _; auto).
  destruct (groupIdsLoop _ _ _ _ _) as [[[ids|e']|p] w4].
  - destruct ((0 <? _) && (0 <? _)); intros H; [discriminate|].
    injection H as <- <- <- _ _. auto.
  - intros H. injection H as <- <- <- _ _. auto.
  - discriminate.
Qed.

(** X2. A lookup of the uid that fails ends the resolution: when the
    command fails its error is returned, when its output is not a number
    the error of [strconv.Atoi] on the trimmed output is returned, and in
    both cases no other command is run.  The same holds for the gid after
    a uid that resolved: the error returned is that of the gid command or
    of parsing its output, and the two commands are all that is run. *)
Theorem getUserCredentials_failure_is_terminal (w : World) :
  (forall out e,
      answerOutput host (trace w) uidCmd = (out, Some e) ->
      fst (getUserCredentials w) = Returned (0, 0, [], Some e) /\
      outputs (newEvents w (snd (getUserCredentials w))) = [uidCmd]) /\
  (forall out n e,
      answerOutput host (trace w) uidCmd = (out, None) ->
      strconv.Atoi (strings.TrimSpace out) = (n, Some e) ->
      fst (getUserCredentials w) = Returned (0, 0, [], Some e) /\
      outputs (newEvents w (snd (getUserCredentials w))) = [uidCmd]) /\
  (forall out uid,
      answerOutput host (trace w) uidCmd = (out, None) ->
      strconv.Atoi (strings.TrimSpace out) = (uid, None) ->
      (forall out2 e,
          answerOutput host (trace w ++ [EvOutput uidCmd]) gidCmd
          = (out2, Some e) ->
          fst (getUserCredentials w) = Returned (0, 0, [], Some e) /\
          outputs (newEvents w (snd (getUserCredentials w)))
          = [uidCmd; gidCmd]) /\
      (forall out2 n e,
          answerOutput host (trace w ++ [EvOutput uidCmd]) gidCmd
          = (out2, None) ->
          strconv.Atoi (strings.TrimSpace out2) = (n, Some e) ->
          fst (getUserCredentials w) = Returned (0, 0, [], Some e) /\
          outputs (newEvents w (snd (getUserCredentials w)))
          = [uidCmd; gidCmd])).
Proof.
  split; [|split].
  - intros out e Hu. rewrite getUserCredentials_run. cbv zeta. rewrite Hu.
    cbn [fst snd]. split; [reflexivity|].
    erewrite newEvents_app; [|cbn; rewrite <- app_assoc; reflexivity].
    reflexivity.
  - intros out n e Hu Pu. rewrite getUserCredentials_run. cbv zeta.
    rewrite Hu, Pu. cbn [fst snd]. split; [reflexivity|].
    erewrite newEvents_app; [|cbn; rewrite <- app_assoc; reflexivity].
    reflexivity.
  - intros out uid Hu Pu. split.
    + intros out2 e Hg. rewrite getUserCredentials_run. cbv zeta.
      rewrite Hu, Pu. cbn [trace record]. rewrite Hg.
      cbn [fst snd]. split; [reflexivity|].
      erewrite newEvents_app; [|cbn; rewrite <- !app_assoc; reflexivity].
      reflexivity.
    + intros out2 n e Hg Pg. rewrite getUserCredentials_run. cbv zeta.
      rewrite Hu, Pu. cbn [trace record]. rewrite Hg, Pg.
      cbn [fst snd]. split; [reflexivity|].
      erewrite newEvents_app; [|cbn; rewrite <- !app_assoc; reflexivity].
      reflexivity.
Qed.

(** X3. [getUserCredentials] only runs commands and logs: what it adds
    to the trace is a run of [cmd.Output()] calls followed by at most one
    logged error, none when it returns a credential, and it leaves the
    environment, [ptyFile] and the files as they were. *)
Theorem getUserCredentials_only_looks_up (w : World) :
  sameProcess w (snd (getUserCredentials w)) /\
  exists cmds logs,
    newEvents w (snd (getUserCredentials w))
    = (map EvOutput cmds ++ logs)%list /\
    (logs = [] \/ exists format args, logs = [EvErrorf format args]) /\
    (forall uid gid groups,
        fst (getUserCredentials w) = Returned (uid, gid, groups, None) ->
        logs = []).
Proof.
  split; [now destruct (getUserCredentials_trace w) as (? & _ & _ & ?)|].
  rewrite getUserCredentials_run. cbv zeta. unfold failed.
  destruct (answerOutput host (trace w) uidCmd) as [out1 [e|]].
  { exists [uidCmd]. eexists. split.
    - apply newEvents_app. cbn. rewrite <- app_assoc. reflexivity.
    - split; [right; eauto|discriminate]. }
  destruct (strconv.Atoi (strings.TrimSpace out1)) as [u [e|]].
  { exists [uidCmd]. eexists. split.
    - apply newEvents_app. cbn. rewrite <- app_assoc. reflexivity.
    - split; [right; eauto|discriminate]. }
  destruct (answerOutput host (trace (record (EvOutput uidCmd) w)) gidCmd)
    as [out2 [e|]].
  { exists [uidCmd; gidCmd]. eexists. split.
    - apply newEvents_app. cbn. rewrite <- !app_assoc. reflexivity.
    - split; [right; eauto|discriminate]. }
  destruct (strconv.Atoi (strings.TrimSpace out2)) as [g [e|]].
  { exists [uidCmd; gidCmd]. eexists. split.
    - apply newEvents_app. cbn. rewrite <- !app_assoc. reflexivity.
    - split; [right; eauto|discriminate]. }
  destruct (answerOutput host
              (trace (record (EvOutput gidCmd) (record (EvOutput uidCmd) w)))
              groupsCmd) as [out3 [e|]].
  { exists [uidCmd; gidCmd; groupsCmd]. eexists. split.
    - apply newEvents_app. cbn. rewrite <- !app_assoc. reflexivity.
    - split; [right; eauto|discriminate]. }
  destruct (groupIdsLoop_events (strings.Split out3 " ")
              (List.length (strings.Split out3 " ") - 2) 2 []
              (record (EvOutput groupsCmd)
                 (record (EvOutput gidCmd) (record (EvOutput uidCmd) w)))
              (getUserCredentials_loop_bound out3))
    as (cmds & logs & Htr & Hlogs & Hok & _).
  destruct (groupIdsLoop (strings.Split out3 " ")
              (List.length (strings.Split out3 " ") - 2) 2 []
              (record (EvOutput groupsCmd)
                 (record (EvOutput gidCmd) (record (EvOutput uidCmd) w))))
    as [r w4].
  cbn [fst snd] in Htr, Hok.
  exists ([uidCmd; gidCmd; groupsCmd] ++ cmds)%list, logs.
  assert (Hnew : newEvents w w4
                 = (map EvOutput ([uidCmd; gidCmd; groupsCmd] ++ cmds) ++ logs)%list).
  { apply newEvents_app. rewrite Htr. cbn [trace record].
    rewrite map_app, <- !app_assoc. reflexivity. }
  destruct r as [[ids|e]|p]; [destruct ((0 <? u) && (0 <? g))| |];
    cbn [fst snd]; (split; [exact Hnew|]); (split; [exact Hlogs|]);
    intros uid gid groups H; try discriminate H.
  now apply (Hok ids).
Qed.

(** X4. In the credential [getUserCredentials] returns there is one
    group id for each token of the group-list output after the second,
    and every id returned is below 2^32, negative numbers the host
    printed having wrapped around. *)
Theorem getUserCredentials_groups_count
        (w w' : World) (uid gid : Z) (groups : list Z) :
  getUserCredentials w = (Returned (uid, gid, groups, None), w') ->
  exists out,
    answerOutput host (trace w ++ [EvOutput uidCmd; EvOutput gidCmd]) groupsCmd
    = (out, None) /\
    List.length groups = (List.length (strings.Split out " ") - 2)%nat /\
    Forall (fun id => 0 <= id < 2 ^ 32) (uid :: gid :: groups).
Proof.
  rewrite getUserCredentials_run. cbv zeta. unfold failed.
  destruct (answerOutput host (trace w) uidCmd) as [out1 [e|]];
    [discriminate|].
  destruct (strconv.Atoi (strings.TrimSpace out1)) as [u [e|]];
    [discriminate|].
  destruct (answerOutput host (trace (record (EvOutput uidCmd) w)) gidCmd)
    as [out2 [e|]]; [discriminate|].
  destruct (strconv.Atoi (strings.TrimSpace out2)) as [g [e|]];
    [discriminate|].
  destruct (answerOutput host
              (trace (record (EvOutput gidCmd) (record (EvOutput uidCmd) w)))
              groupsCmd) as [out3 [e|]] eqn:H3; [discriminate|].
  pose proof (groupIdsLoop_ids (strings.Split out3 " ")
                (List.length (strings.Split out3 " ") - 2) 2 []) as Hids.
  destruct (groupIdsLoop (strings.Split out3 " ")
              (List.length (strings.Split out3 " ") - 2) 2 []
              (record (EvOutput groupsCmd)
                 (record (EvOutput gidCmd) (record (EvOutput uidCmd) w))))
    as [[[ids|e]|p] w4] eqn:HL; try discriminate.
  destruct ((0 <? u) && (0 <? g)); [|discriminate].
  intros H. injection H as <- <- <- _.
  exists out3. split.
  { cbn in H3. rewrite <- app_assoc in H3. exact H3. }
  destruct (Hids ids _ (getUserCredentials_loop_bound out3)
                 (f_equal fst HL)) as (new & -> & Hl & Hall).
  split; [exact Hl|].
  constructor; [unfold uint32; apply Z.mod_pos_bound; lia|].
  constructor; [unfold uint32; apply Z.mod_pos_bound; lia|].
  exact Hall.
Qed.

(** X5. When the group-list output holds at most one space, and so at
    most two tokens, as the empty output does, no group is looked up: with a uid and gid that
    resolved and are greater than zero, the credential is returned with
    no groups after the three commands alone. *)
Theorem getUserCredentials_without_groups
        (w : World) (out1 out2 out3 : string) (uid gid : Z) :
  let w1 := record (EvOutput uidCmd) w in
  let w2 := record (EvOutput gidCmd) w1 in
  let w3 := record (EvOutput groupsCmd) w2 in
  answerOutput host (trace w) uidCmd = (out1, None) ->
  strconv.Atoi (strings.TrimSpace out1) = (uid, None) ->
  answerOutput host (trace w1) gidCmd = (out2, None) ->
  strconv.Atoi (strings.TrimSpace out2) = (gid, None) ->
  answerOutput host (trace w2) groupsCmd = (out3, None) ->
  (strings.Count out3 " " <= 1)%nat ->
  0 < uid -> 0 < gid ->
  getUserCredentials w = (Returned (uint32 uid, uint32 gid, [], None), w3).
Proof.
  intros w1 w2 w3 H1 P1 H2 P2 H3 Hc Hu Hg.
  rewrite getUserCredentials_run. cbv zeta.
  rewrite H1, P1. fold w1. rewrite H2, P2. fold w2. rewrite H3. fold w3.
  assert (Hn : (List.length (strings.Split out3 " ") - 2 = 0)%nat)
    by (rewrite Split_length; lia).
  rewrite Hn. cbn [groupIdsLoop]. unfold ret.
  apply Z.ltb_lt in Hu. apply Z.ltb_lt in Hg. now rewrite Hu, Hg.
Qed.

(** ** More on [StartPty] *)

Lemma wellFormed_record (ev : Event) (w : World) :
  wellFormed (record ev w) <-> wellFormed w.
Proof. reflexivity. Qed.

Lemma sameProcess_wellFormed (w w' : World) :
  sameProcess w w' -> wellFormed w -> wellFormed w'.
Proof.
  intros (_ & _ & Hn & Hc). unfold wellFormed. now rewrite Hn, Hc.
Qed.

Lemma sameProcess_isOpen (w w' : World) (f : File) :
  sameProcess w w' -> isOpen w' f = isOpen w f.
Proof.
  intros (_ & _ & Hn & Hc). unfold isOpen. now rewrite Hn, Hc.
Qed.

(** A file past the ones opened is among the closed ones of no
    well-formed world. *)
Lemma wellFormed_not_closed (w : World) :
  wellFormed w -> existsb (Nat.eqb (nextFile w)) (closedFiles w) = false.
Proof.
  unfold wellFormed. induction (closedFiles w) as [|f l IH]; intros H;
    [reflexivity|].
  inversion H as [|? ? Hf Hl]; subst. cbn.
  rewrite (IH Hl), orb_false_r. apply Nat.eqb_neq. lia.
Qed.

(** [StartPty] either gets to [pty.Start], or returns the error of
    [getUserCredentials], or panics with it; up to there it has left the
    process as it was. *)
Lemma StartPty_reaches_startCmd (runAsSsmUser : bool) (shellCmd : string)
      (w : World) :
  exists w2,
    sameProcess w w2 /\
    ((exists cmd, StartPty runAsSsmUser shellCmd w = startCmd cmd w2) \/
     (exists e, StartPty runAsSsmUser shellCmd w
                = (Returned (None, None, Some e), w2)) \/
     (exists p, StartPty runAsSsmUser shellCmd w = (Panicked p, w2))).
Proof.
  rewrite StartPty_run. destruct runAsSsmUser.
  - destruct (getUserCredentials_trace (beforeResolve w)) as (evs & _ & _ & Hs).
    destruct (getUserCredentials (beforeResolve w))
      as [[[[[uid gid] groups] [e|]]|p] w2]; cbn [snd] in Hs;
      exists w2; (split; [exact Hs|]); eauto.
  - exists (record (EvInfo "Starting pty") w). split.
    + unfold sameProcess. cbn. auto.
    + left. now eexists.
Qed.

(** X6. A [StartPty] that returns no error returns one file, opened by
    this call, as both the input and the output handle, and [ptyFile] is
    that file.  Nothing is closed: a file that was open before, the
    earlier [ptyFile] among them, is still open afterwards. *)
Theorem StartPty_success_handles (runAsSsmUser : bool) (shellCmd : string)
        (w : World) (stdin stdout : option File) :
  wellFormed w ->
  fst (StartPty runAsSsmUser shellCmd w) = Returned (stdin, stdout, None) ->
  let w' := snd (StartPty runAsSsmUser shellCmd w) in
  stdin = Some (nextFile w) /\ stdout = Some (nextFile w) /\
  ptyFile w' = Some (nextFile w) /\
  isOpen w (nextFile w) = false /\ isOpen w' (nextFile w) = true /\
  closedFiles w' = closedFiles w /\
  (forall f, isOpen w f = true -> isOpen w' f = true).
Proof.
  intros Hwf Hok w'. subst w'.
  destruct (StartPty_reaches_startCmd runAsSsmUser shellCmd w)
    as (w2 & Hs & [[cmd Hrun]|[[e Hrun]|[p Hrun]]]);
    rewrite Hrun in *; cbn [fst snd] in *; try discriminate.
  rewrite startCmd_run in *.
  pose proof Hs as (_ & _ & Hn & Hc).
  destruct (answerPtyStart host (trace w2) cmd); cbn [fst snd] in *;
    [discriminate|].
  injection Hok as <- <-. rewrite Hn.
  repeat split; try assumption.
  - unfold isOpen. now rewrite Nat.ltb_irrefl.
  - unfold isOpen. cbn. rewrite Hc, (wellFormed_not_closed w Hwf).
    cbn. rewrite andb_true_r. apply Nat.leb_le. lia.
  - intros f Hf. unfold isOpen in *. cbn. rewrite Hc.
    apply andb_true_iff in Hf. destruct Hf as [Hlt Hnc]. rewrite Hnc.
    rewrite andb_true_r. apply Nat.ltb_lt in Hlt.
    first [apply Nat.leb_le | apply Nat.ltb_lt]; lia.
Qed.

(** X7. When [pty.Start] fails, [StartPty] logs the failure and returns
    it wrapped as "Failed to start pty", and [ptyFile] is [nil] from then
    on, whatever it was: a session that was active stays open but [Stop]
    no longer reaches it and fails on the [nil] file. *)
Theorem StartPty_start_failure_drops_handle (shellCmd : string) (w : World)
        (e : error) :
  answerPtyStart host (trace w ++ [EvInfo "Starting pty"])
                 (preparedCmd shellCmd w) = Some e ->
  let w' := snd (StartPty false shellCmd w) in
  fst (StartPty false shellCmd w)
  = Returned (None, None,
              Some (fmtErrorf ("Failed to start pty: %s" ++ newLineCharacter) e))
  /\
  newEvents w w'
  = [EvInfo "Starting pty"; EvPtyStart (preparedCmd shellCmd w);
     EvErrorf ("Failed to start pty: %s" ++ newLineCharacter) [ArgError e]] /\
  ptyFile w' = None /\
  (forall f, isOpen w' f = isOpen w f) /\
  fst (Stop w')
  = Returned (Some (fmtErrorf "unable to close ptyFile. %s" ErrInvalid)).
Proof.
  intros He w'. subst w'. rewrite StartPty_run, startCmd_run.
  cbn [trace record]. rewrite He. cbn [fst snd].
  split; [reflexivity|]. split.
  { apply newEvents_app. cbn. now rewrite <- app_assoc. }
  split; [reflexivity|]. split; [reflexivity|].
  rewrite Stop_run. reflexivity.
Qed.

(** The first thing [getUserCredentials] does is to look the uid up. *)
Lemma getUserCredentials_first (w : World) :
  exists rest,
    trace (snd (getUserCredentials w))
    = (trace w ++ EvOutput uidCmd :: rest)%list.
Proof.
  rewrite getUserCredentials_run. cbv zeta. unfold failed.
  destruct (answerOutput host (trace w) uidCmd) as [out1 [e|]].
  { eexists. cbn. rewrite <- app_assoc. reflexivity. }
  destruct (strconv.Atoi (strings.TrimSpace out1)) as [u [e|]].
  { eexists. cbn. rewrite <- app_assoc. reflexivity. }
  destruct (answerOutput host (trace (record (EvOutput uidCmd) w)) gidCmd)
    as [out2 [e|]].
  { eexists. cbn. rewrite <- !app_assoc. reflexivity. }
  destruct (strconv.Atoi (strings.TrimSpace out2)) as [g [e|]].
  { eexists. cbn. rewrite <- !app_assoc. reflexivity. }
  destruct (answerOutput host
              (trace (record (EvOutput gidCmd) (record (EvOutput uidCmd) w)))
              groupsCmd) as [out3 [e|]].
  { eexists. cbn. rewrite <- !app_assoc. reflexivity. }
  destruct (groupIdsLoop_trace (strings.Split out3 " ")
              (List.length (strings.Split out3 " ") - 2) 2 []
              (record (EvOutput groupsCmd)
                 (record (EvOutput gidCmd) (record (EvOutput uidCmd) w)))
              (getUserCredentials_loop_bound out3))
    as (k & evs & _ & Htr & _).
  destruct (groupIdsLoop (strings.Split out3 " ")
              (List.length (strings.Split out3 " ") - 2) 2 []
              (record (EvOutput groupsCmd)
                 (record (EvOutput gidCmd) (record (EvOutput uidCmd) w))))
    as [r w4].
  cbn [snd] in Htr.
  exists (EvOutput gidCmd :: EvOutput groupsCmd :: evs).
  destruct r as [[ids|e]|p]; [destruct ((0 <? u) && (0 <? g))| |];
    cbn [snd]; rewrite Htr; cbn [trace record]; rewrite <- !app_assoc;
    reflexivity.
Qed.

(** X8. With the runas user asked for, [StartPty] calls
    [CreateLocalAdminUser] right after its first log line and before the
    first lookup.  Without it, [StartPty] neither creates the user nor
    runs any lookup, and the command it starts carries no credential. *)
Theorem StartPty_runas_steps (shellCmd : string) (w : World) :
  (exists rest,
      newEvents w (snd (StartPty true shellCmd w))
      = EvInfo "Starting pty" :: EvCreateLocalAdminUser :: EvOutput uidCmd
          :: rest) /\
  (exists rest,
      newEvents w (snd (StartPty false shellCmd w))
      = EvInfo "Starting pty" :: EvPtyStart (preparedCmd shellCmd w) :: rest /\
      outputs rest = [] /\ ~ In EvCreateLocalAdminUser rest) /\
  exec.SysProcAttr (preparedCmd shellCmd w) = None.
Proof.
  split; [|split].
  - rewrite StartPty_run.
    destruct (getUserCredentials_first (beforeResolve w)) as [rest Htr].
    destruct (getUserCredentials (beforeResolve w))
      as [[[[[uid gid] groups] [e|]]|p] w2]; cbn [snd] in Htr |- *.
    + exists rest. apply newEvents_app. rewrite Htr. cbn.
      now rewrite <- !app_assoc.
    + destruct (startCmd_ptyStarts
                  (withCredential (preparedCmd shellCmd w) uid gid groups) w2)
        as (evs2 & Htr2 & _).
      exists (rest ++ evs2)%list. apply newEvents_app. rewrite Htr2, Htr. cbn.
      now rewrite <- !app_assoc.
    + exists rest. apply newEvents_app. rewrite Htr. cbn.
      now rewrite <- !app_assoc.
  - rewrite StartPty_run, startCmd_run. cbn [trace record].
    destruct (answerPtyStart host _ _) as [e|]; cbn [snd]; eexists;
      (split; [apply newEvents_app; cbn; rewrite <- !app_assoc; reflexivity|]);
      cbn; split; try reflexivity; intros H; intuition discriminate.
  - unfold preparedCmd.
    destruct (String.eqb (os.lookup langEnvVariableKey (environ w)) "");
      destruct (String.eqb (strings.TrimSpace shellCmd) ""); reflexivity.
Qed.

(** ** More on [Stop], [SetSize] and [generateLogData] *)

(** X9. On a host where opening, resizing and closing a PTY succeed,
    [StartPty] without the runas user, then [SetSize], then [Stop]
    each return no error, whatever the command, columns and rows; the
    file is closed afterwards, and the three calls have asked for the
    start, the resize and the close, in this order and once each. *)
Theorem Start_SetSize_Stop (shellCmd : string) (ws_col ws_row : Z)
        (w : World) :
  ptyWorks -> wellFormed w ->
  let f := Some (nextFile w) in
  let w1 := snd (StartPty false shellCmd w) in
  let w2 := snd (SetSize ws_col ws_row w1) in
  let w3 := snd (Stop w2) in
  fst (StartPty false shellCmd w) = Returned (f, f, None) /\
  fst (SetSize ws_col ws_row w1) = Returned None /\
  fst (Stop w2) = Returned None /\
  isOpen w3 (nextFile w) = false /\
  newEvents w w3
  = [EvInfo "Starting pty"; EvPtyStart (preparedCmd shellCmd w);
     EvSetsize f {| pty.Rows := uint16 ws_row; pty.Cols := uint16 ws_col |};
     EvInfo "Stopping pty"; EvClose f].
Proof.
  intros (Hstart & Hsize & Hclose) Hwf. cbv zeta.
  rewrite StartPty_run, startCmd_run, Hstart. cbn [fst snd].
  split; [reflexivity|].
  rewrite SetSize_run. cbv zeta. cbn [fst snd ptyFile].
  assert (Hopen : forall w',
             nextFile w' = S (nextFile w) -> closedFiles w' = closedFiles w ->
             isOpen w' (nextFile w) = true).
  { intros w' Hn Hc. unfold isOpen. rewrite Hn, Hc.
    rewrite (wellFormed_not_closed w Hwf).
    cbn [negb]. rewrite andb_true_r. apply Nat.ltb_lt. lia. }
  rewrite Hopen by reflexivity. rewrite Hsize. split; [reflexivity|].
  rewrite Stop_run. cbv zeta. unfold Close. cbn [ptyFile record].
  rewrite Hopen by reflexivity. rewrite Hclose. cbn [fst snd].
  split; [reflexivity|]. split.
  - unfold isOpen. cbn. now rewrite Nat.eqb_refl, andb_false_r.
  - apply newEvents_app. cbn. rewrite <- !app_assoc. reflexivity.
Qed.

(** X10. [Stop] while [ptyFile] is [nil], as before the first
    [StartPty], returns the error "unable to close ptyFile" around
    [os.ErrInvalid]; it does not panic and no file is closed. *)
Theorem Stop_without_session (w : World) :
  ptyFile w = None ->
  fst (Stop w)
  = Returned (Some (fmtErrorf "unable to close ptyFile. %s" ErrInvalid)) /\
  sameProcess w (snd (Stop w)) /\
  newEvents w (snd (Stop w)) = [EvInfo "Stopping pty"; EvClose None].
Proof.
  intros Hnil. rewrite Stop_run. cbv zeta. rewrite Hnil. cbn.
  split; [reflexivity|]. split.
  - unfold sameProcess. cbn. auto.
  - apply newEvents_app. cbn. now rewrite <- app_assoc.
Qed.

(** X11. [SetSize] changes nothing in the process, whatever it returns;
    and once [Stop] has run on a session, [SetSize] returns the error
    "set pty size failed" around [EBADF] without asking the host. *)
Theorem SetSize_after_Stop (ws_col ws_row : Z) (w : World) (f : File) :
  ptyFile w = Some f ->
  sameProcess w (snd (SetSize ws_col ws_row w)) /\
  fst (SetSize ws_col ws_row (snd (Stop w)))
  = Returned (Some (fmtErrorf "set pty size failed: %s" EBADF)).
Proof.
  intros Hf. split.
  - rewrite SetSize_run. unfold sameProcess. cbn. auto.
  - rewrite SetSize_run, Stop_run. cbv zeta. rewrite Hf. unfold Close.
    rewrite isOpen_record.
    destruct (isOpen w f) eqn:Ho.
    + destruct (answerClose host _ f); cbn [fst snd ptyFile record];
        rewrite Hf; unfold isOpen; cbn; rewrite Nat.eqb_refl; cbn;
        now rewrite andb_false_r.
    + cbn [fst snd ptyFile record]. rewrite Hf, !isOpen_record, Ho.
      reflexivity.
Qed.

Lemma World_ext (w1 w2 : World) :
  environ w1 = environ w2 -> ptyFile w1 = ptyFile w2 ->
  nextFile w1 = nextFile w2 -> closedFiles w1 = closedFiles w2 ->
  trace w1 = trace w2 -> w1 = w2.
Proof. destruct w1, w2. cbn. now intros -> -> -> -> ->. Qed.

(** The whole of [generateLogData], by what the host answers to the
    start of the shadow session. *)
Lemma generateLogData_run (p : ShellPlugin) (w : World) :
  generateLogData p w =
  let cmd := preparedCmd "" w in
  let f := nextFile w in
  let exitCmdInput := Exit ++ newLineCharacter in
  match answerPtyStart host (trace w ++ [EvInfo "Starting pty"]) cmd with
  | Some e =>
      (Returned
         (Some (fmtErrorf ("Failed to start pty: %s" ++ newLineCharacter) e)),
       {| environ := environ w; ptyFile := None; nextFile := nextFile w;
          closedFiles := closedFiles w;
          trace := (trace w ++
                    [EvInfo "Starting pty"; EvPtyStart cmd;
                     EvErrorf ("Failed to start pty: %s" ++ newLineCharacter)
                              [ArgError e]])%list |})
  | None =>
      (Returned None,
       {| environ := environ w; ptyFile := Some f; nextFile := S f;
          closedFiles :=
            if existsb (Nat.eqb f) (closedFiles w) then closedFiles w
            else f :: closedFiles w;
          trace :=
            (trace w ++
             [EvInfo "Starting pty"; EvPtyStart cmd;
              EvSleep (5 * time.Second);
              EvWrite (Some f)
                (screenBufferSizeCmd ScreenBufferSize newLineCharacter);
              EvSleep (5 * time.Second);
              EvWrite (Some f)
                (startRecordSessionCmd ++ " " ++ logFilePath p
                   ++ newLineCharacter);
              EvSleep (5 * time.Second);
              EvWrite (Some f)
                (DefaultSessionLogger ++ " " ++ ipcFilePath p ++ " "
                   ++ "false" ++ newLineCharacter);
              EvSleep time.Minute;
              EvWrite (Some f) exitCmdInput;
              EvSleep (30 * time.Second);
              EvWrite (Some f) exitCmdInput;
              EvSleep (5 * time.Second);
              EvWrite (Some f) exitCmdInput;
              EvSleep (5 * time.Second);
              EvClose (Some f);
              EvSleep (15 * time.Second)])%list |})
  end.
Proof.
  cbv zeta. unfold generateLogData. unfold bind at 1. cbv beta.
  rewrite StartPty_run, startCmd_run.
  cbn [environ ptyFile nextFile closedFiles trace record].
  destruct (answerPtyStart host (trace w ++ [EvInfo "Starting pty"])
              (preparedCmd "" w)) as [e|].
  - now rewrite <- app_assoc.
  - unfold deferRecover.
    unfold bind, time.Sleep, emit, Write, Close, ret. cbn [fst snd].
    rewrite !isOpen_record. unfold isOpen. cbn [nextFile closedFiles].
    replace (nextFile w <? S (nextFile w))%nat with true
      by (symmetry; apply Nat.ltb_lt; lia).
    cbn [andb].
    destruct (existsb (Nat.eqb (nextFile w)) (closedFiles w)); cbn [negb];
      (apply (f_equal2 pair); [reflexivity|]); apply World_ext;
      cbn [environ ptyFile nextFile closedFiles trace record];
      try reflexivity; rewrite <- !app_assoc; reflexivity.
Qed.

Lemma StartPty_false_answer (shellCmd : string) (w : World)
      (stdin stdout : option File) (err : option error) :
  fst (StartPty false shellCmd w) = Returned (stdin, stdout, err) ->
  match answerPtyStart host (trace w ++ [EvInfo "Starting pty"])
                       (preparedCmd shellCmd w) with
  | Some e =>
      err = Some (fmtErrorf ("Failed to start pty: %s" ++ newLineCharacter) e)
  | None => err = None
  end.
Proof.
  rewrite StartPty_run, startCmd_run. cbn [trace record].
  destruct (answerPtyStart host _ _); cbn [fst]; intros H;
    now injection H as _ _ <-.
Qed.

(** X12. [generateLogData] runs its shadow session through the package
    variable [ptyFile]: once the shadow session has started, [ptyFile] is
    the shadow file after the call, and that file is closed, by the one
    close the call makes.  A session that was open before is still open
    but is no longer the one [Stop] and [SetSize] act on: both fail on
    the closed shadow file. *)
Theorem generateLogData_takes_over_ptyFile (p : ShellPlugin) (w : World)
        (stdin stdout : option File) :
  fst (StartPty false "" w) = Returned (stdin, stdout, None) ->
  let w' := snd (generateLogData p w) in
  ptyFile w' = Some (nextFile w) /\
  isOpen w' (nextFile w) = false /\
  (forall f, isOpen w f = true -> isOpen w' f = true) /\
  closes (newEvents w w') = [Some (nextFile w)] /\
  fst (Stop w')
  = Returned (Some (fmtErrorf "unable to close ptyFile. %s"
                              (PathError "close" ptmx ErrClosed))) /\
  (forall ws_col ws_row,
      fst (SetSize ws_col ws_row w')
      = Returned (Some (fmtErrorf "set pty size failed: %s" EBADF))).
Proof.
  intros Hstart w'. subst w'. apply StartPty_false_answer in Hstart.
  rewrite generateLogData_run. cbv zeta.
  destruct (answerPtyStart host _ _) as [e|]; [discriminate|].
  cbn [snd].
  assert (Hclosed :
            isOpen
              {| environ := environ w; ptyFile := Some (nextFile w);
                 nextFile := S (nextFile w);
                 closedFiles :=
                   if existsb (Nat.eqb (nextFile w)) (closedFiles w)
                   then closedFiles w else nextFile w :: closedFiles w;
                 trace := trace (snd (generateLogData p w)) |}
              (nextFile w) = false).
  { unfold isOpen. cbn [nextFile closedFiles].
    destruct (existsb (Nat.eqb (nextFile w)) (closedFiles w)) eqn:E.
    - rewrite E. now rewrite andb_false_r.
    - cbn. rewrite Nat.eqb_refl. cbn. now rewrite andb_false_r. }
  split; [reflexivity|]. split; [exact Hclosed|]. split.
  { intros f Hf. unfold isOpen in *. cbn [nextFile closedFiles].
    apply andb_true_iff in Hf. destruct Hf as [Hlt Hnc].
    apply Nat.ltb_lt in Hlt. apply andb_true_iff. split.
    - apply Nat.ltb_lt. lia.
    - destruct (existsb (Nat.eqb (nextFile w)) (closedFiles w));
        [exact Hnc|].
      cbn [existsb].
      replace (f =? nextFile w)%nat with false
        by (symmetry; apply Nat.eqb_neq; lia).
      exact Hnc. }
  split.
  { erewrite newEvents_app; [|reflexivity]. reflexivity. }
  split.
  - rewrite Stop_run. cbv zeta. cbn [ptyFile]. unfold Close.
    rewrite isOpen_record.
    change (isOpen _ (nextFile w)) with
      (isOpen
         {| environ := environ w; ptyFile := Some (nextFile w);
            nextFile := S (nextFile w);
            closedFiles :=
              if existsb (Nat.eqb (nextFile w)) (closedFiles w)
              then closedFiles w else nextFile w :: closedFiles w;
            trace := trace (snd (generateLogData p w)) |} (nextFile w)).
    now rewrite Hclosed.
  - intros ws_col ws_row. rewrite SetSize_run. cbv zeta. cbn [fst ptyFile].
    change (isOpen _ (nextFile w)) with
      (isOpen
         {| environ := environ w; ptyFile := Some (nextFile w);
            nextFile := S (nextFile w);
            closedFiles :=
              if existsb (Nat.eqb (nextFile w)) (closedFiles w)
              then closedFiles w else nextFile w :: closedFiles w;
            trace := trace (snd (generateLogData p w)) |} (nextFile w)).
    now rewrite Hclosed.
Qed.

(** X13. A [generateLogData] whose shadow session has started spends
    130 seconds in [time.Sleep], whatever the host answers to its writes;
    one whose shadow session fails to start does not sleep. *)
Theorem generateLogData_sleeps (p : ShellPlugin) (w : World)
        (stdin stdout : option File) (err : option error) :
  fst (StartPty false "" w) = Returned (stdin, stdout, err) ->
  slept (newEvents w (snd (generateLogData p w)))
  = match err with
    | None => 130 * time.Second
    | Some _ => 0
    end.
Proof.
  intros Hstart. apply StartPty_false_answer in Hstart.
  rewrite generateLogData_run. cbv zeta.
  destruct (answerPtyStart host _ _) as [e|]; subst err; cbn [snd];
    (erewrite newEvents_app; [|reflexivity]); reflexivity.
Qed.

(** X15. The test that the uid is greater than zero is made on the
    [int] that was parsed, and the conversion to [uint32] comes after it:
    when every lookup succeeds and the parsed uid is a positive multiple
    of 2^32, the credential is returned with uid 0 and no error. *)
Theorem getUserCredentials_uid_tested_before_conversion
        (w w4 : World) (out1 out2 out3 : string) (uid gid k : Z)
        (groupIds : list Z) :
  let w1 := record (EvOutput uidCmd) w in
  let w2 := record (EvOutput gidCmd) w1 in
  let w3 := record (EvOutput groupsCmd) w2 in
  let groupNames := strings.Split out3 " " in
  answerOutput host (trace w) uidCmd = (out1, None) ->
  strconv.Atoi (strings.TrimSpace out1) = (uid, None) ->
  answerOutput host (trace w1) gidCmd = (out2, None) ->
  strconv.Atoi (strings.TrimSpace out2) = (gid, None) ->
  answerOutput host (trace w2) groupsCmd = (out3, None) ->
  groupIdsLoop groupNames (List.length groupNames - 2) 2 [] w3
  = (Returned (inl groupIds), w4) ->
  uid = k * 2 ^ 32 -> 0 < k -> 0 < gid ->
  getUserCredentials w = (Returned (0, uint32 gid, groupIds, None), w4).
Proof.
  intros w1 w2 w3 groupNames H1 P1 H2 P2 H3 HL Hk Hpos Hg.
  rewrite getUserCredentials_run. cbv zeta.
  rewrite H1, P1. fold w1. rewrite H2, P2. fold w2. rewrite H3.
  fold w3. fold groupNames. rewrite HL.
  assert (Hu : 0 < uid) by lia.
  apply Z.ltb_lt in Hu. apply Z.ltb_lt in Hg. rewrite Hu, Hg. cbn [andb].
  unfold uint32 at 1. subst uid. now rewrite Z.mod_mul by lia.
Qed.

(** X16. The ids of the groups are not tested: with a uid and gid that
    resolved and are greater than zero and a group-list output of three
    tokens, whatever number the third field of the group's record
    holds, zero and negative numbers too, is returned as the group id,
    converted to [uint32]. *)
Theorem getUserCredentials_group_id_unchecked
        (w : World) (out1 out2 out3 rec field a b name : string)
        (uid gid id : Z) :
  let w1 := record (EvOutput uidCmd) w in
  let w2 := record (EvOutput gidCmd) w1 in
  let w3 := record (EvOutput groupsCmd) w2 in
  answerOutput host (trace w) uidCmd = (out1, None) ->
  strconv.Atoi (strings.TrimSpace out1) = (uid, None) ->
  answerOutput host (trace w1) gidCmd = (out2, None) ->
  strconv.Atoi (strings.TrimSpace out2) = (gid, None) ->
  answerOutput host (trace w2) groupsCmd = (out3, None) ->
  strings.Split out3 " " = [a; b; name] ->
  answerOutput host (trace w3) (getent name) = (rec, None) ->
  nth_error (strings.Split rec ":") 2 = Some field ->
  strconv.Atoi (strings.TrimSpace field) = (id, None) ->
  0 < uid -> 0 < gid ->
  getUserCredentials w
  = (Returned (uint32 uid, uint32 gid, [id mod 2 ^ 32], None),
     record (EvOutput (getent name)) w3).
Proof.
  intros w1 w2 w3 H1 P1 H2 P2 H3 Hs H4 Hf P4 Hu Hg.
  rewrite getUserCredentials_run. cbv zeta.
  rewrite H1, P1. fold w1. rewrite H2, P2. fold w2. rewrite H3.
  fold w3. rewrite Hs.
  change (List.length [a; b; name] - 2)%nat with 1%nat.
  rewrite (groupIdsLoop_step [a; b; name] 0 2 [] w3 name eq_refl).
  cbv zeta. rewrite H4, Hf, P4. cbn [groupIdsLoop app]. unfold ret.
  apply Z.ltb_lt in Hu. apply Z.ltb_lt in Hg. now rewrite Hu, Hg.
Qed.

End Shell.

(** ** Runs on the demonstration hosts *)

Lemma getUserCredentials_accepts_positive_ids_only_witness :
  fst (getUserCredentials Demo.healthy Demo.user Demo.sh Demo.shArgs
         (Demo.fresh Demo.env0))
  = Returned (1001, 1001, [1001; 1004], None) /\
  fst (getUserCredentials Demo.rootUser Demo.user Demo.sh Demo.shArgs
         (Demo.fresh Demo.env0))
  = Returned (0, 0, [], Some (errorString "invalid uid and gid")).
Proof.
  split.
  - rewrite (proj1 (getUserCredentials_accepts_positive_ids_only
                      Demo.healthy Demo.user Demo.sh Demo.shArgs
                      (Demo.fresh Demo.env0)
                      (snd (getUserCredentials Demo.healthy Demo.user Demo.sh
                              Demo.shArgs (Demo.fresh Demo.env0)))
                      ("1001" ++ Demo.nl) ("1001" ++ Demo.nl)
                      ("ssm-user : ssm-user test" ++ Demo.nl)
                      1001 1001 [1001; 1004]
                      eq_refl eq_refl eq_refl eq_refl eq_refl eq_refl)
                   (conj eq_refl eq_refl)).
    reflexivity.
  - rewrite (proj2 (getUserCredentials_accepts_positive_ids_only
                      Demo.rootUser Demo.user Demo.sh Demo.shArgs
                      (Demo.fresh Demo.env0)
                      (snd (getUserCredentials Demo.rootUser Demo.user Demo.sh
                              Demo.shArgs (Demo.fresh Demo.env0)))
                      ("0" ++ Demo.nl) ("1001" ++ Demo.nl)
                      ("ssm-user : ssm-user test" ++ Demo.nl)
                      0 1001 [1001; 1004]
                      eq_refl eq_refl eq_refl eq_refl eq_refl eq_refl)
                   (or_introl (Z.le_refl 0))).
    reflexivity.
Defined.

(** The test on the uid and gid is made on the [int] values; the
    conversion to [uint32] comes after it and wraps. *)
Remark getUserCredentials_uid_wraps :
  fst (getUserCredentials Demo.wideUid Demo.user Demo.sh Demo.shArgs
         (Demo.fresh Demo.env0))
  = Returned (0, 1001, [1001; 1004], None).
Proof. reflexivity. Qed.

Lemma StartPty_shell_arguments_witness :
  (exists c,
      ptyStarts (newEvents (Demo.fresh Demo.env1)
                   (snd (StartPty Demo.healthy Demo.user Demo.sh Demo.shArgs
                           false "ls -l" (Demo.fresh Demo.env1)))) = [c] /\
      exec.Args c = ["sh"; "-c"; "ls -l"]) /\
  (exists c,
      ptyStarts (newEvents (Demo.fresh Demo.env1)
                   (snd (StartPty Demo.healthy Demo.user Demo.sh Demo.shArgs
                           false "  " (Demo.fresh Demo.env1)))) = [c] /\
      exec.Args c = ["sh"]) /\
  (exists c,
      ptyStarts (newEvents (Demo.fresh Demo.env1)
                   (snd (StartPty Demo.healthy Demo.user Demo.sh Demo.shArgs
                           true "ls -l" (Demo.fresh Demo.env1)))) = [c] /\
      exec.Args c = ["sh"; "-c"; "ls -l"]).
Proof.
  split; [|split].
  - destruct (StartPty_shell_arguments Demo.healthy Demo.user Demo.sh
                Demo.shArgs false "ls -l" (Demo.fresh Demo.env1))
      as (H1 & _ & H2).
    destruct (H1 eq_refl) as [c Hc]. exists c. split; [exact Hc|].
    apply (H2 c); [rewrite Hc; left; reflexivity|].
    intros H. cbv in H. discriminate H.
  - destruct (StartPty_shell_arguments Demo.healthy Demo.user Demo.sh
                Demo.shArgs false "  " (Demo.fresh Demo.env1))
      as (H1 & _ & H2).
    destruct (H1 eq_refl) as [c Hc]. exists c. split; [exact Hc|].
    apply (H2 c); [rewrite Hc; left; reflexivity|].
    reflexivity.
  - destruct (StartPty_shell_arguments Demo.healthy Demo.user Demo.sh
                Demo.shArgs true "ls -l" (Demo.fresh Demo.env1))
      as (_ & H1 & H2).
    destruct (H1 1001 1001 [1001; 1004] eq_refl eq_refl) as [c Hc].
    exists c. split; [exact Hc|].
    apply (H2 c); [rewrite Hc; left; reflexivity|].
    intros H. cbv in H. discriminate H.
Defined.

Lemma StartPty_runas_credential_witness :
  fst (StartPty Demo.noUser Demo.user Demo.sh Demo.shArgs true ""
         (Demo.fresh Demo.env0))
  = Returned (None, None, Some (HostError "exit status 1")) /\
  (exists c,
      ptyStarts (newEvents (Demo.fresh Demo.env0)
                   (snd (StartPty Demo.healthy Demo.user Demo.sh Demo.shArgs
                           true "" (Demo.fresh Demo.env0)))) = [c] /\
      exec.SysProcAttr c
      = Some {| syscall.Cred :=
                  Some {| syscall.Uid := 1001; syscall.Gid := 1001;
                          syscall.Groups := [1001; 1004];
                          syscall.NoSetGroups := false |} |}).
Proof.
  split.
  - destruct (StartPty_runas_credential Demo.noUser Demo.user Demo.sh
                Demo.shArgs "" (Demo.fresh Demo.env0)
                (snd (getUserCredentials Demo.noUser Demo.user Demo.sh
                        Demo.shArgs (beforeResolve (Demo.fresh Demo.env0))))
                0 0 [] (Some (HostError "exit status 1")) eq_refl)
      as [H _].
    destruct (H _ eq_refl) as [-> _]. reflexivity.
  - destruct (StartPty_runas_credential Demo.healthy Demo.user Demo.sh
                Demo.shArgs "" (Demo.fresh Demo.env0)
                (snd (getUserCredentials Demo.healthy Demo.user Demo.sh
                        Demo.shArgs (beforeResolve (Demo.fresh Demo.env0))))
                1001 1001 [1001; 1004] None eq_refl)
      as [_ H].
    exact (H eq_refl).
Defined.



Lemma generateLogData_script_witness :
  (fst (generateLogData Demo.healthy Demo.user Demo.logger Demo.sh Demo.shArgs
          Demo.bufferSize Demo.exit Demo.plugin (Demo.fresh Demo.env0))
   = Returned None /\
   newEvents
     (snd (StartPty Demo.healthy Demo.user Demo.sh Demo.shArgs false ""
             (Demo.fresh Demo.env0)))
     (snd (generateLogData Demo.healthy Demo.user Demo.logger Demo.sh
             Demo.shArgs Demo.bufferSize Demo.exit Demo.plugin
             (Demo.fresh Demo.env0)))
   = [EvSleep 5000000000;
      EvWrite (Some O) ("screen -h 30000" ++ String "010" EmptyString);
      EvSleep 5000000000;
      EvWrite (Some O)
        ("script /var/log/session.log" ++ String "010" EmptyString);
      EvSleep 5000000000;
      EvWrite (Some O)
        ("ssm-session-logger /tmp/ipc false" ++ String "010" EmptyString);
      EvSleep 60000000000;
      EvWrite (Some O) ("exit" ++ String "010" EmptyString);
      EvSleep 30000000000;
      EvWrite (Some O) ("exit" ++ String "010" EmptyString);
      EvSleep 5000000000;
      EvWrite (Some O) ("exit" ++ String "010" EmptyString);
      EvSleep 5000000000;
      EvClose (Some O);
      EvSleep 15000000000]) /\
  (fst (generateLogData Demo.noPty Demo.user Demo.logger Demo.sh Demo.shArgs
          Demo.bufferSize Demo.exit Demo.plugin (Demo.fresh Demo.env0))
   = Returned
       (Some (fmtErrorf ("Failed to start pty: %s" ++ String "010" EmptyString)
                        (HostError "no such device"))) /\
   newEvents (Demo.fresh Demo.env0)
     (snd (generateLogData Demo.noPty Demo.user Demo.logger Demo.sh
             Demo.shArgs Demo.bufferSize Demo.exit Demo.plugin
             (Demo.fresh Demo.env0)))
   = [EvInfo "Starting pty";
      EvPtyStart
        {| exec.Name := "sh"; exec.Args := ["sh"];
           exec.Env := ["PATH=/usr/bin:/bin"; "LANG=en_US.UTF-8";
                        "TERM=xterm-256color"; "HOME=/home/ssm-user"];
           exec.SysProcAttr := None |};
      EvErrorf ("Failed to start pty: %s" ++ String "010" EmptyString)
               [ArgError (HostError "no such device")]]).
Proof.
  split.
  - destruct (generateLogData_script Demo.healthy Demo.user Demo.logger
                Demo.sh Demo.shArgs Demo.bufferSize Demo.exit Demo.plugin
                (Demo.fresh Demo.env0) (Some O) (Some O) None eq_refl)
      as [_ H].
    exact (H eq_refl).
  - destruct (generateLogData_script Demo.noPty Demo.user Demo.logger
                Demo.sh Demo.shArgs Demo.bufferSize Demo.exit Demo.plugin
                (Demo.fresh Demo.env0) None None
                (Some (fmtErrorf ("Failed to start pty: %s" ++ newLineCharacter)
                                 (HostError "no such device"))) eq_refl)
      as [H _].
    destruct (H _ eq_refl) as [-> _]. split; reflexivity.
Defined.

Lemma SetSize_before_start_fails_witness :
  fst (SetSize Demo.healthy 80 24 (Demo.fresh Demo.env0))
  = Returned (Some (fmtErrorf "set pty size failed: %s" EBADF)).
Proof.
  exact (proj1 (SetSize_before_start_fails Demo.healthy Demo.user Demo.sh
                  Demo.shArgs 80 24 (Demo.fresh Demo.env0) eq_refl)).
Defined.

Lemma Stop_closes_once_witness :
  fst (Stop Demo.healthy
         (snd (StartPty Demo.healthy Demo.user Demo.sh Demo.shArgs false ""
                 (Demo.fresh Demo.env0))))
  = Returned None /\
  fst (Stop Demo.healthy
         (snd (Stop Demo.healthy
                 (snd (StartPty Demo.healthy Demo.user Demo.sh Demo.shArgs
                         false "" (Demo.fresh Demo.env0))))))
  = Returned (Some (fmtErrorf "unable to close ptyFile. %s"
                              (PathError "close" ptmx ErrClosed))).
Proof.
  destruct (Stop_closes_once Demo.healthy
              (snd (StartPty Demo.healthy Demo.user Demo.sh Demo.shArgs false ""
                      (Demo.fresh Demo.env0))) O eq_refl) as (H1 & _ & H3).
  split.
  - rewrite (H1 eq_refl). reflexivity.
  - exact H3.
Defined.

Lemma SetSize_applies_uint16_witness :
  newEvents
    (snd (StartPty Demo.healthy Demo.user Demo.sh Demo.shArgs false ""
            (Demo.fresh Demo.env0)))
    (snd (SetSize Demo.healthy 80 24
            (snd (StartPty Demo.healthy Demo.user Demo.sh Demo.shArgs false ""
                    (Demo.fresh Demo.env0)))))
  = [EvSetsize (Some O) {| pty.Rows := 24; pty.Cols := 80 |}].
Proof.
  apply (proj1 (proj2 (SetSize_applies_uint16 Demo.healthy 80 24
                         (snd (StartPty Demo.healthy Demo.user Demo.sh
                                 Demo.shArgs false ""
                                 (Demo.fresh Demo.env0)))))); lia.
Defined.

(** C9, as stated, fails: in a session just started, [SetSize 65616 24]
    applies 80 columns, not 65616. *)
Lemma SetSize_applies_given_counterexample :
  ptyFile
    (snd (StartPty Demo.healthy Demo.user Demo.sh Demo.shArgs false ""
            (Demo.fresh Demo.env0))) = Some O /\
  isOpen
    (snd (StartPty Demo.healthy Demo.user Demo.sh Demo.shArgs false ""
            (Demo.fresh Demo.env0))) O = true /\
  newEvents
    (snd (StartPty Demo.healthy Demo.user Demo.sh Demo.shArgs false ""
            (Demo.fresh Demo.env0)))
    (snd (SetSize Demo.healthy 65616 24
            (snd (StartPty Demo.healthy Demo.user Demo.sh Demo.shArgs false ""
                    (Demo.fresh Demo.env0)))))
  = [EvSetsize (Some O) {| pty.Rows := 24; pty.Cols := 80 |}] /\
  newEvents
    (snd (StartPty Demo.healthy Demo.user Demo.sh Demo.shArgs false ""
            (Demo.fresh Demo.env0)))
    (snd (SetSize Demo.healthy 65616 24
            (snd (StartPty Demo.healthy Demo.user Demo.sh Demo.shArgs false ""
                    (Demo.fresh Demo.env0)))))
  <> [EvSetsize (Some O) {| pty.Rows := 24; pty.Cols := 65616 |}].
Proof.
  repeat split; try reflexivity.
  intros H. vm_compute in H. discriminate H.
Qed.

Lemma group_record_third_field_unchecked_witness :
  fst (groupIdsLoop Demo.shortRecord Demo.sh Demo.shArgs
         ["ssm-user"; ":"; "ssm-user"; "test" ++ Demo.nl] 2 2 []
         (Demo.fresh Demo.env0))
  = Panicked (IndexOutOfRange 2 2) /\
  fst (getUserCredentials Demo.shortRecord Demo.user Demo.sh Demo.shArgs
         (Demo.fresh Demo.env0))
  = Panicked (IndexOutOfRange 2 2).
Proof.
  split.
  - exact (proj1 (proj2 (group_record_third_field_unchecked Demo.shortRecord
                           Demo.user Demo.sh Demo.shArgs))
                 ["ssm-user"; ":"; "ssm-user"; "test" ++ Demo.nl] 1%nat 2%nat []
                 (Demo.fresh Demo.env0) "ssm-user" ("ssm-user:x" ++ Demo.nl)
                 eq_refl eq_refl (le_n 2)).
  - reflexivity.
Defined.

(** ** More runs on the demonstration hosts *)

Lemma getUserCredentials_error_returns_zero_witness :
  getUserCredentials Demo.noUser Demo.user Demo.sh Demo.shArgs
    (Demo.fresh Demo.env0)
  = (Returned (0, 0, [], Some (HostError "exit status 1")),
     snd (getUserCredentials Demo.noUser Demo.user Demo.sh Demo.shArgs
            (Demo.fresh Demo.env0))) /\
  (0 = 0 /\ 0 = 0 /\ @nil Z = []).
Proof.
  split; [reflexivity|].
  apply (getUserCredentials_error_returns_zero Demo.noUser Demo.user Demo.sh
           Demo.shArgs (Demo.fresh Demo.env0)
           (snd (getUserCredentials Demo.noUser Demo.user Demo.sh Demo.shArgs
                   (Demo.fresh Demo.env0)))
           0 0 [] (HostError "exit status 1")).
  reflexivity.
Defined.

Lemma getUserCredentials_failure_is_terminal_witness :
  fst (getUserCredentials Demo.noUser Demo.user Demo.sh Demo.shArgs
         (Demo.fresh Demo.env0))
  = Returned (0, 0, [], Some (HostError "exit status 1")) /\
  outputs
    (newEvents (Demo.fresh Demo.env0)
       (snd (getUserCredentials Demo.noUser Demo.user Demo.sh Demo.shArgs
               (Demo.fresh Demo.env0))))
  = [exec.Command "sh" ["-c"; "id -u ssm-user"]].
Proof.
  exact (proj1 (getUserCredentials_failure_is_terminal Demo.noUser Demo.user
                  Demo.sh Demo.shArgs (Demo.fresh Demo.env0))
               EmptyString (HostError "exit status 1") eq_refl).
Defined.

Lemma getUserCredentials_groups_count_witness :
  exists out,
    answerOutput Demo.healthy
      (trace (Demo.fresh Demo.env0)
         ++ [EvOutput (uidCmd Demo.user Demo.sh Demo.shArgs);
             EvOutput (gidCmd Demo.user Demo.sh Demo.shArgs)])
      (groupsCmd Demo.user Demo.sh Demo.shArgs) = (out, None) /\
    List.length [1001; 1004] = (List.length (strings.Split out " ") - 2)%nat /\
    Forall (fun id => 0 <= id < 2 ^ 32) [1001; 1001; 1001; 1004].
Proof.
  apply (getUserCredentials_groups_count Demo.healthy Demo.user Demo.sh
           Demo.shArgs (Demo.fresh Demo.env0)
           (snd (getUserCredentials Demo.healthy Demo.user Demo.sh Demo.shArgs
                   (Demo.fresh Demo.env0)))).
  reflexivity.
Defined.

Lemma getUserCredentials_without_groups_witness :
  fst (getUserCredentials Demo.noGroups Demo.user Demo.sh Demo.shArgs
         (Demo.fresh Demo.env0))
  = Returned (1001, 1001, [], None).
Proof.
  rewrite (getUserCredentials_without_groups Demo.noGroups Demo.user Demo.sh
             Demo.shArgs (Demo.fresh Demo.env0)
             ("1001" ++ Demo.nl) ("1001" ++ Demo.nl) EmptyString 1001 1001
             eq_refl eq_refl eq_refl eq_refl eq_refl (le_S 0 0 (le_n 0))
             eq_refl eq_refl).
  reflexivity.
Defined.

Lemma StartPty_success_handles_witness :
  ptyFile (snd (StartPty Demo.healthy Demo.user Demo.sh Demo.shArgs false ""
                  (Demo.fresh Demo.env0))) = Some O /\
  isOpen (snd (StartPty Demo.healthy Demo.user Demo.sh Demo.shArgs false ""
                 (Demo.fresh Demo.env0))) O = true.
Proof.
  destruct (StartPty_success_handles Demo.healthy Demo.user Demo.sh
              Demo.shArgs false "" (Demo.fresh Demo.env0) (Some O) (Some O)
              (Forall_nil _) eq_refl)
    as (_ & _ & Hp & _ & Ho & _).
  split; assumption.
Defined.

Lemma StartPty_start_failure_drops_handle_witness :
  ptyFile (snd (StartPty Demo.noPty Demo.user Demo.sh Demo.shArgs false ""
                  (Demo.fresh Demo.env0))) = None /\
  fst (Stop Demo.noPty
         (snd (StartPty Demo.noPty Demo.user Demo.sh Demo.shArgs false ""
                 (Demo.fresh Demo.env0))))
  = Returned (Some (fmtErrorf "unable to close ptyFile. %s" ErrInvalid)).
Proof.
  destruct (StartPty_start_failure_drops_handle Demo.noPty Demo.user Demo.sh
              Demo.shArgs "" (Demo.fresh Demo.env0)
              (HostError "no such device") eq_refl)
    as (_ & _ & Hp & _ & Hs).
  split; assumption.
Defined.

Lemma Start_SetSize_Stop_witness :
  fst (Stop Demo.healthy
         (snd (SetSize Demo.healthy 80 24
                 (snd (StartPty Demo.healthy Demo.user Demo.sh Demo.shArgs
                         false "" (Demo.fresh Demo.env0))))))
  = Returned None.
Proof.
  destruct (Start_SetSize_Stop Demo.healthy Demo.user Demo.sh Demo.shArgs
              "" 80 24 (Demo.fresh Demo.env0)
              (conj (fun _ _ => eq_refl)
                    (conj (fun _ _ _ => eq_refl) (fun _ _ => eq_refl)))
              (Forall_nil _))
    as (_ & _ & Hs & _).
  exact Hs.
Defined.

Lemma Stop_without_session_witness :
  fst (Stop Demo.healthy (Demo.fresh Demo.env0))
  = Returned (Some (fmtErrorf "unable to close ptyFile. %s" ErrInvalid)).
Proof.
  exact (proj1 (Stop_without_session Demo.healthy (Demo.fresh Demo.env0)
                  eq_refl)).
Defined.

Lemma SetSize_after_Stop_witness :
  fst (SetSize Demo.healthy 80 24
         (snd (Stop Demo.healthy
                 (snd (StartPty Demo.healthy Demo.user Demo.sh Demo.shArgs
                         false "" (Demo.fresh Demo.env0))))))
  = Returned (Some (fmtErrorf "set pty size failed: %s" EBADF)).
Proof.
  exact (proj2 (SetSize_after_Stop Demo.healthy 80 24
                  (snd (StartPty Demo.healthy Demo.user Demo.sh Demo.shArgs
                          false "" (Demo.fresh Demo.env0)))
                  O eq_refl)).
Defined.

Lemma generateLogData_takes_over_ptyFile_witness :
  ptyFile (snd (generateLogData Demo.healthy Demo.user Demo.logger Demo.sh
                  Demo.shArgs Demo.bufferSize Demo.exit Demo.plugin
                  (Demo.fresh Demo.env0))) = Some O /\
  isOpen (snd (generateLogData Demo.healthy Demo.user Demo.logger Demo.sh
                 Demo.shArgs Demo.bufferSize Demo.exit Demo.plugin
                 (Demo.fresh Demo.env0))) O = false.
Proof.
  destruct (generateLogData_takes_over_ptyFile Demo.healthy Demo.user
              Demo.logger Demo.sh Demo.shArgs Demo.bufferSize Demo.exit
              Demo.plugin (Demo.fresh Demo.env0) (Some O) (Some O) eq_refl)
    as (Hp & Ho & _).
  split; assumption.
Defined.

Lemma generateLogData_sleeps_witness :
  slept
    (newEvents (Demo.fresh Demo.env0)
       (snd (generateLogData Demo.healthy Demo.user Demo.logger Demo.sh
               Demo.shArgs Demo.bufferSize Demo.exit Demo.plugin
               (Demo.fresh Demo.env0))))
  = 130 * time.Second.
Proof.
  exact (generateLogData_sleeps Demo.healthy Demo.user Demo.logger Demo.sh
           Demo.shArgs Demo.bufferSize Demo.exit Demo.plugin
           (Demo.fresh Demo.env0) (Some O) (Some O) None eq_refl).
Defined.

Lemma getUserCredentials_uid_tested_before_conversion_witness :
  fst (getUserCredentials Demo.wideUid Demo.user Demo.sh Demo.shArgs
         (Demo.fresh Demo.env0))
  = Returned (0, 1001, [1001; 1004], None).
Proof.
  rewrite (getUserCredentials_uid_tested_before_conversion
             Demo.wideUid Demo.user Demo.sh Demo.shArgs
             (Demo.fresh Demo.env0)
             (snd (getUserCredentials Demo.wideUid Demo.user Demo.sh
                     Demo.shArgs (Demo.fresh Demo.env0)))
             ("4294967296" ++ Demo.nl) ("1001" ++ Demo.nl)
             ("ssm-user : ssm-user test" ++ Demo.nl)
             4294967296 1001 1 [1001; 1004]
             eq_refl eq_refl eq_refl eq_refl eq_refl eq_refl
             eq_refl eq_refl eq_refl).
  reflexivity.
Defined.

Lemma getUserCredentials_group_id_unchecked_witness :
  fst (getUserCredentials Demo.rootGroup Demo.user Demo.sh Demo.shArgs
         (Demo.fresh Demo.env0))
  = Returned (1001, 1001, [0], None).
Proof.
  rewrite (getUserCredentials_group_id_unchecked
             Demo.rootGroup Demo.user Demo.sh Demo.shArgs
             (Demo.fresh Demo.env0)
             ("1001" ++ Demo.nl) ("1001" ++ Demo.nl) "ssm-user : root"
             ("root:x:0:" ++ Demo.nl) "0" "ssm-user" ":" "root" 1001 1001 0
             eq_refl eq_refl eq_refl eq_refl eq_refl eq_refl eq_refl eq_refl
             eq_refl eq_refl eq_refl).
  reflexivity.
Defined.
